(** * E-commerce sales analysis: a shallow embedding of [analysis.py]

    The script loads a CSV table with pandas, prints seven breakdowns
    (group-by / aggregate / round / sort) and a list of key insights.

    Modelling choices, fixed once for the whole development:

    - a numeric cell read from the CSV file is an exact rational [Q];
      the result of a pandas reduction is a [float]: a finite rational,
      an infinity or NaN.  The rounding error of binary64 arithmetic is
      not modelled: sums, means and quotients are exact;
    - every record carries a value for each field of the schema, and the
      list of column names says which of them the file really has:
      reading a column that is absent raises [KeyError], as pandas does;
    - missing cells (pandas NA) are outside the data model, and so is
      the parsing of the cells: a date is a valid calendar date, a
      quantity an integer, a price and a discount decimal numbers;
    - [print(frame)] is kept as the labels and cells of the frame, not
      as the text that pandas lays out;
    - [print] appends to an explicit standard output, and an exception
      stops the run and keeps what has been printed so far. *)

From Stdlib Require Import ZArith QArith Qround Qabs Qcanon.
From Stdlib Require Import List String Ascii Bool Lia Lqa.
From Stdlib Require Import Permutation Sorted DecimalString.
Import ListNotations.

Local Open Scope string_scope.
Local Open Scope list_scope.
Local Open Scope Z_scope.

Infix "+++" := String.append (right associativity, at level 60).

(** ** Numbers *)

(** A binary64 value as pandas and numpy produce it in this program. *)
Inductive float : Type :=
| Fin (q : Q)
| PInf
| NInf
| NaN.

Definition isnan (x : float) : bool :=
  match x with NaN => true | _ => false end.

(** [x < y] on floats; every comparison with NaN is false. *)
Definition fltb (x y : float) : bool :=
  match x, y with
  | NaN, _ | _, NaN => false
  | _, NInf | PInf, _ => false
  | NInf, _ | _, PInf => true
  | Fin a, Fin b => negb (Qle_bool b a)
  end.

Definition fleb (x y : float) : bool :=
  match x, y with
  | NaN, _ | _, NaN => false
  | NInf, _ | _, PInf => true
  | _, NInf | PInf, _ => false
  | Fin a, Fin b => Qle_bool a b
  end.

Definition Qeqb0 (q : Q) : bool := Qeq_bool q 0.
Definition Qneg (q : Q) : bool := negb (Qle_bool 0 q).

(** True division of numpy scalars: a zero divisor gives an infinity or
    NaN (with a warning on stderr), never an exception. *)
Definition fdiv (x y : float) : float :=
  match x, y with
  | NaN, _ | _, NaN => NaN
  | Fin a, Fin b =>
      if Qeqb0 b then
        if Qeqb0 a then NaN else if Qneg a then NInf else PInf
      else Fin (a / b)
  | Fin _, _ => Fin 0
  | PInf, Fin b => if Qneg b then NInf else PInf
  | NInf, Fin b => if Qneg b then PInf else NInf
  | _, _ => NaN
  end.

Definition fmul (x y : float) : float :=
  match x, y with
  | NaN, _ | _, NaN => NaN
  | Fin a, Fin b => Fin (a * b)
  | Fin a, PInf | PInf, Fin a =>
      if Qeqb0 a then NaN else if Qneg a then NInf else PInf
  | Fin a, NInf | NInf, Fin a =>
      if Qeqb0 a then NaN else if Qneg a then PInf else NInf
  | PInf, PInf | NInf, NInf => PInf
  | _, _ => NInf
  end.

(** [Series.sum()] of a float column. *)
Definition Qsum (l : list Q) : Q := fold_right Qplus 0%Q l.

(** [Series.sum()] of an integer column. *)
Definition Zsum (l : list Z) : Z := fold_right Z.add 0 l.

(** [Series.mean()]: NaN on an empty selection. *)
Definition mean (l : list Q) : float :=
  match l with
  | [] => NaN
  | _ => Fin (Qsum l / inject_Z (Z.of_nat (List.length l)))
  end.

(** Round to the nearest integer, ties to the even one ([numpy.rint]). *)
Definition rint (x : Q) : Z :=
  let f := Qfloor x in
  let d := (x - inject_Z f)%Q in
  match (d ?= 1 # 2)%Q with
  | Lt => f
  | Gt => f + 1
  | Eq => if Z.even f then f else f + 1
  end.

(** [numpy.round(x, 2)]: scale by 100, round, scale back. *)
Definition round2 (x : Q) : Q := (inject_Z (rint (x * 100)) / 100)%Q.

Definition fround2 (x : float) : float :=
  match x with Fin q => Fin (round2 q) | _ => x end.

(** A stable insertion sort; [leb x y] says that [x] may stand before [y]. *)
Fixpoint insert_by {A : Type} (leb : A -> A -> bool) (x : A) (l : list A)
  : list A :=
  match l with
  | [] => [x]
  | y :: l' => if leb x y then x :: l else y :: insert_by leb x l'
  end.

Fixpoint sort_by {A : Type} (leb : A -> A -> bool) (l : list A) : list A :=
  match l with
  | [] => []
  | x :: l' => insert_by leb x (sort_by leb l')
  end.

(** [Series.median()]: the middle value, or the mean of the two middle
    values; NaN on an empty selection. *)
Definition median (l : list Q) : float :=
  let s := sort_by Qle_bool l in
  let n := List.length s in
  match n with
  | O => NaN
  | _ =>
      if Nat.even n
      then Fin ((nth (n / 2 - 1) s 0%Q + nth (n / 2) s 0%Q) / 2)
      else Fin (nth (n / 2) s 0%Q)
  end.

(** ** Text *)

Definition nl : string := String (ascii_of_nat 10) "".

Fixpoint repeat_str (s : string) (n : nat) : string :=
  match n with
  | O => ""
  | S n' => s +++ repeat_str s n'
  end.

(** [str(n)] for an integer. *)
Definition str_Z (z : Z) : string := NilZero.string_of_int (Z.to_int z).

(** Digits, least significant first, with a comma after every third. *)
Fixpoint group3 (l : list ascii) (n : nat) : list ascii :=
  match l with
  | [] => []
  | c :: l' =>
      match n with
      | O => ","%char :: c :: group3 l' 2
      | S n' => c :: group3 l' n'
      end
  end.

Definition commas (digits : string) : string :=
  string_of_list_ascii (rev (group3 (rev (list_ascii_of_string digits)) 3)).

Definition pad2 (n : Z) : string :=
  if n <? 10 then "0" +++ str_Z n else str_Z n.

Definition pad4 (n : Z) : string :=
  if n <? 10 then "000" +++ str_Z n
  else if n <? 100 then "00" +++ str_Z n
  else if n <? 1000 then "0" +++ str_Z n
  else str_Z n.

(** The format specifications [:.2f] ([sep = false]) and [:,.2f]
    ([sep = true]). *)
Definition format_2f (sep : bool) (x : float) : string :=
  match x with
  | NaN => "nan"
  | PInf => "inf"
  | NInf => "-inf"
  | Fin q =>
      let a := Z.abs (rint (q * 100)) in
      let ip := str_Z (a / 100) in
      (if Qneg q then "-" else "")
        +++ (if sep then commas ip else ip) +++ "." +++ pad2 (a mod 100)
  end.

(** The format specification [:,] of an integer. *)
Definition format_int (z : Z) : string :=
  (if z <? 0 then "-" else "") +++ commas (str_Z (Z.abs z)).

Fixpoint frac_digits (fuel : nat) (r d : Z) : string :=
  match fuel with
  | O => ""
  | S fuel' =>
      if r =? 0 then ""
      else str_Z (10 * r / d) +++ frac_digits fuel' (10 * r mod d) d
  end.

(** [str(x)] of a float: the decimal expansion, with at least one digit
    after the point.  It is the text Python prints for a value that was
    read from a decimal literal of moderate size; the exponent notation
    of very large and very small values is not modelled. *)
Definition float_str (x : float) : string :=
  match x with
  | NaN => "nan"
  | PInf => "inf"
  | NInf => "-inf"
  | Fin q =>
      let d := Zpos (Qden q) in
      let a := Z.abs (Qnum q) in
      let fd := frac_digits 17 (a mod d) d in
      (if Qnum q <? 0 then "-" else "")
        +++ str_Z (a / d) +++ "."
        +++ (match fd with EmptyString => "0" | _ => fd end)
  end.

(** ** Dates *)

Record Date : Type := mkDate { year : Z; month_num : Z; day : Z }.

Definition date_leb (a b : Date) : bool :=
  match year a ?= year b with
  | Lt => true
  | Gt => false
  | Eq =>
      match month_num a ?= month_num b with
      | Lt => true
      | Gt => false
      | Eq => day a <=? day b
      end
  end.

(** Days since 1970-01-01 in the proleptic Gregorian calendar. *)
Definition days_from_civil (d : Date) : Z :=
  let y := if month_num d <=? 2 then year d - 1 else year d in
  let era := y / 400 in
  let yoe := y - era * 400 in
  let mp := (month_num d + 9) mod 12 in
  let doy := (153 * mp + 2) / 5 + day d - 1 in
  let doe := yoe * 365 + yoe / 4 - yoe / 100 + doy in
  era * 146097 + doe - 719468.

(** [Series.dt.day_name()]. *)
Definition day_name (d : Date) : string :=
  nth (Z.to_nat ((days_from_civil d + 3) mod 7))
    ["Monday"; "Tuesday"; "Wednesday"; "Thursday"; "Friday"; "Saturday";
     "Sunday"] "".

(** [Series.dt.quarter]. *)
Definition quarter_of (d : Date) : Z := (month_num d - 1) / 3 + 1.

(** [str(ts.date())]: ISO format. *)
Definition date_str (d : Date) : string :=
  pad4 (year d) +++ "-" +++ pad2 (month_num d) +++ "-" +++ pad2 (day d).

(** [Series.min()] and [Series.max()] of a datetime column; [None] is
    NaT, the result on an empty column. *)
Definition date_min (l : list Date) : option Date :=
  match l with
  | [] => None
  | d :: l' => Some (fold_left (fun m x => if date_leb m x then m else x) l' d)
  end.

Definition date_max (l : list Date) : option Date :=
  match l with
  | [] => None
  | d :: l' => Some (fold_left (fun m x => if date_leb x m then m else x) l' d)
  end.

(** ** Grouping keys *)

(** What [groupby] needs of a key: an order (the index of the result is
    sorted) and the text printed for it. *)
Class Key (K : Type) : Type := {
  kcmp : K -> K -> comparison;
  kstr : K -> string
}.

#[export] Instance Key_string : Key string :=
  {| kcmp := String.compare; kstr := fun s => s |}.

#[export] Instance Key_Z : Key Z :=
  {| kcmp := Z.compare; kstr := str_Z |}.

(** A float key: the canonical rational, so that equal numbers are one
    key whatever their representation.  It is printed as a float
    ([10.0]); a column that pandas reads as integers would print
    without the point. *)
#[export] Instance Key_Qc : Key Qc :=
  {| kcmp := Qccompare; kstr := fun q => float_str (Fin (this q)) |}.

Section Groupby.
Context {K : Type} `{Key K} {A : Type}.

(** Put a row into its group, keeping the groups sorted by key and
    the rows of a group in table order. *)
Fixpoint add_to_group (k : K) (r : A) (gs : list (K * list A))
  : list (K * list A) :=
  match gs with
  | [] => [(k, [r])]
  | (k', rs) :: gs' =>
      match kcmp k k' with
      | Lt => (k, [r]) :: gs
      | Eq => (k', r :: rs) :: gs'
      | Gt => (k', rs) :: add_to_group k r gs'
      end
  end.

(** [df.groupby(key)]: one group per key that occurs, keys ascending
    (pandas sorts group keys by default). *)
Fixpoint groupby (key : A -> K) (df : list A) : list (K * list A) :=
  match df with
  | [] => []
  | r :: df' => add_to_group (key r) r (groupby key df')
  end.
End Groupby.

(** ** The table *)

(** One record of the CSV file, with the nine fields of the schema. *)
Record CsvRecord : Type := mkCsvRecord {
  csv_date : Date;
  csv_product : string;
  csv_category : string;
  csv_region : string;
  csv_payment_method : string;
  csv_customer_id : string;
  csv_quantity : Z;
  csv_discount_percent : Q;
  csv_final_price : Q
}.

(** A CSV file: the names in its header line and its records. *)
Record CsvFile : Type := mkCsvFile {
  header : list string;
  records : list CsvRecord
}.

(** A row of the loaded table: the record and the derived columns. *)
Record Row : Type := mkRow {
  date : Date;
  product : string;
  category : string;
  region : string;
  payment_method : string;
  customer_id : string;
  quantity : Z;
  discount_percent : Q;
  final_price : Q;
  month : Z;
  quarter : Z;
  day_of_week : string
}.

Record DataFrame : Type := mkDataFrame {
  columns : list string;
  rows : list Row
}.

Definition has_name (c : string) (names : list string) : bool :=
  existsb (String.eqb c) names.

Definition has_col (df : DataFrame) (c : string) : bool :=
  has_name c (columns df).

(** [len(df)]. *)
Definition len (df : DataFrame) : Z := Z.of_nat (List.length (rows df)).

(** A column of the table: its name and the field it reads. *)
Record Column (A : Type) : Type := mkColumn {
  cname : string;
  cget : Row -> A
}.
Arguments mkColumn {A} _ _.
Arguments cname {A} _.
Arguments cget {A} _ _.

Definition col_date := mkColumn "date" date.
Definition col_product := mkColumn "product" product.
Definition col_category := mkColumn "category" category.
Definition col_region := mkColumn "region" region.
Definition col_payment_method := mkColumn "payment_method" payment_method.
Definition col_customer_id := mkColumn "customer_id" customer_id.
Definition col_quantity := mkColumn "quantity" quantity.
Definition col_discount_percent := mkColumn "discount_percent" discount_percent.
Definition col_final_price := mkColumn "final_price" final_price.
Definition col_month := mkColumn "month" month.
Definition col_quarter := mkColumn "quarter" quarter.

(** [discount_percent] as a grouping key. *)
Definition key_discount_percent : Column Qc :=
  mkColumn "discount_percent" (fun r => Q2Qc (discount_percent r)).

(** ** Exceptions *)

Inductive exn : Type :=
| FileNotFoundError (path : string)
| KeyError (key : string)
| ValueError (msg : string).

(** The result of an expression that may raise. *)
Definition result (A : Type) : Type := (exn + A)%type.

Definition rbind {A B : Type} (r : result A) (f : A -> result B) : result B :=
  match r with
  | inl e => inl e
  | inr a => f a
  end.

Notation "'let?' x := r 'in' k" := (rbind r (fun x => k))
  (at level 10, x name, r at level 100, k at level 200).

(** [df[c]]. *)
Definition getitem {A : Type} (df : DataFrame) (c : Column A)
  : result (list A) :=
  if has_col df (cname c) then inr (map (cget c) (rows df))
  else inl (KeyError (cname c)).

(** [df[df[c] <op> v]]: the rows whose [c] satisfies the test. *)
Definition select {A : Type} (df : DataFrame) (c : Column A)
  (test : A -> bool) : result DataFrame :=
  if has_col df (cname c)
  then inr (mkDataFrame (columns df)
              (filter (fun r => test (cget c r)) (rows df)))
  else inl (KeyError (cname c)).

(** [Series.nunique()]. *)
Definition nunique (l : list string) : Z :=
  Z.of_nat (List.length (nodup string_dec l)).

(** ** Aggregation results *)

Inductive cell : Type :=
| CF (x : float)
| CI (z : Z).

Definition cell_float (c : cell) : float :=
  match c with
  | CF x => x
  | CI z => Fin (inject_Z z)
  end.

(** [str(c)] of a scalar taken from a frame. *)
Definition cell_str (c : cell) : string :=
  match c with
  | CF x => float_str x
  | CI z => str_Z z
  end.

(** A series: an index of keys and one value per key. *)
Definition Series (K : Type) : Type := list (K * cell).

(** A frame of statistics: named columns and one row per key. *)
Record Frame (K : Type) : Type := mkFrame {
  fcolumns : list string;
  frows : list (K * list cell)
}.
Arguments mkFrame {K} _ _.
Arguments fcolumns {K} _.
Arguments frows {K} _.

Inductive stat : Type := Sum | Mean | Count.

Definition stat_name (s : stat) : string :=
  match s with Sum => "sum" | Mean => "mean" | Count => "count" end.

(** A numeric column of the table, float or integer. *)
Inductive NumColumn : Type :=
| FloatCol (c : Column Q)
| IntCol (c : Column Z).

Definition num_name (c : NumColumn) : string :=
  match c with FloatCol c => cname c | IntCol c => cname c end.

(** One statistic of one column over the rows of a group. *)
Definition apply_stat (c : NumColumn) (s : stat) (rs : list Row) : cell :=
  match s, c with
  | Count, _ => CI (Z.of_nat (List.length rs))
  | Sum, FloatCol c => CF (Fin (Qsum (map (cget c) rs)))
  | Sum, IntCol c => CI (Zsum (map (cget c) rs))
  | Mean, FloatCol c => CF (mean (map (cget c) rs))
  | Mean, IntCol c => CF (mean (map (fun r => inject_Z (cget c r)) rs))
  end.

(** The dictionary passed to [agg]: columns and the statistics of each. *)
Definition agg_spec : Type := list (NumColumn * list stat).

Definition agg_labels (spec : agg_spec) : list string :=
  flat_map (fun cs => map (fun s => num_name (fst cs) +++ "." +++ stat_name s)
                        (snd cs)) spec.

Definition agg_row (spec : agg_spec) (rs : list Row) : list cell :=
  flat_map (fun cs => map (fun s => apply_stat (fst cs) s rs) (snd cs)) spec.

(** The first column of the dictionary that the table lacks. *)
Fixpoint missing_column (names : list string) (spec : agg_spec)
  : option string :=
  match spec with
  | [] => None
  | cs :: spec' =>
      if has_name (num_name (fst cs)) names then missing_column names spec'
      else Some (num_name (fst cs))
  end.

(** [df.groupby(c)], with the column names of [df] kept for [agg]. *)
Definition df_groupby {K : Type} `{Key K} (df : DataFrame) (c : Column K)
  : result (list string * list (K * list Row)) :=
  if has_col df (cname c)
  then inr (columns df, groupby (cget c) (rows df))
  else inl (KeyError (cname c)).

(** [grouped.agg(spec)]. *)
Definition agg {K : Type} (g : list string * list (K * list Row))
  (spec : agg_spec) : result (Frame K) :=
  match missing_column (fst g) spec with
  | Some c => inl (KeyError c)
  | None =>
      inr (mkFrame (agg_labels spec)
             (map (fun kr => (fst kr, agg_row spec (snd kr))) (snd g)))
  end.

(** [grouped[c].sum()]. *)
Definition grouped_sum {K : Type} (g : list string * list (K * list Row))
  (c : Column Q) : result (Series K) :=
  if has_name (cname c) (fst g)
  then inr (map (fun kr => (fst kr, apply_stat (FloatCol c) Sum (snd kr)))
              (snd g))
  else inl (KeyError (cname c)).

Definition cell_round2 (c : cell) : cell :=
  match c with
  | CF x => CF (fround2 x)
  | CI z => CI z
  end.

(** [frame.round(2)] and [series.round(2)]. *)
Definition frame_round2 {K : Type} (f : Frame K) : Frame K :=
  mkFrame (fcolumns f)
    (map (fun kr => (fst kr, map cell_round2 (snd kr))) (frows f)).

Definition series_round2 {K : Type} (s : Series K) : Series K :=
  map (fun kv => (fst kv, cell_round2 (snd kv))) s.

(** [frame.columns = names]. *)
Definition set_columns {K : Type} (names : list string) (f : Frame K)
  : result (Frame K) :=
  if Nat.eqb (List.length names) (List.length (fcolumns f))
  then inr (mkFrame names (frows f))
  else inl (ValueError "Length mismatch").

Fixpoint index_of (name : string) (names : list string) : option nat :=
  match names with
  | [] => None
  | n :: names' =>
      if String.eqb name n then Some O
      else option_map S (index_of name names')
  end.

Definition cell_at (i : nat) (cs : list cell) : cell := nth i cs (CF NaN).

(** [frame[name]]. *)
Definition frame_col {K : Type} (f : Frame K) (name : string)
  : result (Series K) :=
  match index_of name (fcolumns f) with
  | None => inl (KeyError name)
  | Some i => inr (map (fun kr => (fst kr, cell_at i (snd kr))) (frows f))
  end.

(** [frame.loc[k, name]] for a key taken from the index of the frame. *)
Definition loc {K : Type} `{Key K} (f : Frame K) (k : K) (name : string)
  : result cell :=
  match index_of name (fcolumns f) with
  | None => inl (KeyError name)
  | Some i =>
      match find (fun kr =>
                    match kcmp k (fst kr) with Eq => true | _ => false end)
              (frows f) with
      | None => inl (KeyError (kstr k))
      | Some kr => inr (cell_at i (snd kr))
      end
  end.

(** [frame.sort_values(name, ascending=False)]: rows by decreasing value
    of the column, rows with NaN last.  The default sorting kind of pandas
    promises no order among rows with equal values; here they keep the
    order of the frame, and no property below depends on that choice. *)
Definition sort_values_desc {K : Type} (name : string) (f : Frame K)
  : result (Frame K) :=
  match index_of name (fcolumns f) with
  | None => inl (KeyError name)
  | Some i =>
      let v := fun kr : K * list cell => cell_float (cell_at i (snd kr)) in
      inr (mkFrame (fcolumns f)
             (sort_by (fun a b => fleb (v b) (v a))
                (filter (fun kr => negb (isnan (v kr))) (frows f))
              ++ filter (fun kr => isnan (v kr)) (frows f)))
  end.

(** The first entry that no later entry beats. *)
Fixpoint first_best {K : Type} (better : float -> float -> bool)
  (best : K * cell) (s : Series K) : K * cell :=
  match s with
  | [] => best
  | kv :: s' =>
      if better (cell_float (snd kv)) (cell_float (snd best))
      then first_best better kv s'
      else first_best better best s'
  end.

Definition notna {K : Type} (s : Series K) : Series K :=
  filter (fun kv => negb (isnan (cell_float (snd kv)))) s.

Definition best_of {K : Type} (better : float -> float -> bool)
  (s : Series K) : option (K * cell) :=
  match notna s with
  | [] => None
  | kv :: s' => Some (first_best better kv s')
  end.

Definition greater (x y : float) : bool := fltb y x.
Definition less (x y : float) : bool := fltb x y.

(** [series.idxmax()]: the key of the first maximum; it raises on a
    series with no value. *)
Definition idxmax {K : Type} (s : Series K) : result K :=
  match best_of greater s with
  | None => inl (ValueError "attempt to get argmax of an empty sequence")
  | Some kv => inr (fst kv)
  end.

Definition idxmin {K : Type} (s : Series K) : result K :=
  match best_of less s with
  | None => inl (ValueError "attempt to get argmin of an empty sequence")
  | Some kv => inr (fst kv)
  end.

(** [series.max()] and [series.min()]: NaN on a series with no value. *)
Definition smax {K : Type} (s : Series K) : cell :=
  match best_of greater s with
  | None => CF NaN
  | Some kv => snd kv
  end.

Definition smin {K : Type} (s : Series K) : cell :=
  match best_of less s with
  | None => CF NaN
  | Some kv => snd kv
  end.

(** ** Printing and exceptions *)

(** What one call of [print] writes: a line of text, or a frame or a
    series laid out by pandas (kept as its labels and cells). *)
Inductive printed : Type :=
| Text (s : string)
| Table (names : list string) (body : list (string * list cell)).

Definition stdout : Type := list printed.

(** A statement: it reads and extends standard output, and ends with a
    value or with an exception. *)
Definition Py (A : Type) : Type := stdout -> stdout * result A.

Definition ret {A : Type} (a : A) : Py A := fun out => (out, inr a).

Definition bind {A B : Type} (m : Py A) (f : A -> Py B) : Py B :=
  fun out =>
    match m out with
    | (out', inr a) => f a out'
    | (out', inl e) => (out', inl e)
    end.

(** An expression evaluated inside a statement. *)
Definition eval {A : Type} (r : result A) : Py A := fun out => (out, r).

Definition print (s : string) : Py unit :=
  fun out => (out ++ [Text s], inr tt).

(** The layout of a frame and of a series. *)
Definition table_of {K : Type} `{Key K} (f : Frame K) : printed :=
  Table (fcolumns f) (map (fun kr => (kstr (fst kr), snd kr)) (frows f)).

Definition series_table {K : Type} `{Key K} (name : string) (s : Series K)
  : printed :=
  Table [name] (map (fun kv => (kstr (fst kv), [snd kv])) s).

Definition print_frame {K : Type} `{Key K} (f : Frame K) : Py unit :=
  fun out => (out ++ [table_of f], inr tt).

Definition print_series {K : Type} `{Key K} (name : string) (s : Series K)
  : Py unit :=
  fun out => (out ++ [series_table name s], inr tt).

Notation "x <- m ;; k" := (bind m (fun x => k))
  (at level 61, m at next level, right associativity).
Notation "m ;; k" := (bind m (fun _ => k))
  (at level 61, right associativity).

Definition rule : string := repeat_str "=" 60.

(** ** Loader *)

(** The files that exist, by path. *)
Definition FileSystem : Type := string -> option CsvFile.

(** [pd.read_csv(filepath)]. *)
Definition read_csv (fs : FileSystem) (filepath : string) : result CsvFile :=
  match fs filepath with
  | None => inl (FileNotFoundError filepath)
  | Some f => inr f
  end.

(** [df[c] = ...]: a new column goes last, an old one keeps its place. *)
Definition set_item (c : string) (names : list string) : list string :=
  if has_name c names then names else names ++ [c].

Definition derive (r : CsvRecord) : Row :=
  {| date := csv_date r;
     product := csv_product r;
     category := csv_category r;
     region := csv_region r;
     payment_method := csv_payment_method r;
     customer_id := csv_customer_id r;
     quantity := csv_quantity r;
     discount_percent := csv_discount_percent r;
     final_price := csv_final_price r;
     month := month_num (csv_date r);
     quarter := quarter_of (csv_date r);
     day_of_week := day_name (csv_date r) |}.

Definition default_path : string := "ecommerce_sales_2025.csv".

(** The table built from a file that has a [date] column: the records
    with the three derived columns. *)
Definition table_of_file (f : CsvFile) : DataFrame :=
  mkDataFrame
    (set_item "day_of_week"
       (set_item "quarter" (set_item "month" (header f))))
    (map derive (records f)).

Definition load_data (fs : FileSystem) (filepath : string)
  : result DataFrame :=
  let? f := read_csv fs filepath in
  if has_name "date" (header f)
  then inr (table_of_file f)
  else inl (KeyError "date").

(** ** Report sections *)

(** [ts.date()]: the date of a timestamp.  On NaT pandas returns NaT
    again (it is one of the methods of NaT that do not raise). *)
Definition timestamp_date (t : option Date) : option Date := t.

(** [str(d)] of a date or of NaT. *)
Definition date_repr (t : option Date) : string :=
  match t with
  | None => "NaT"
  | Some d => date_str d
  end.

Definition basic_statistics (df : DataFrame) : Py unit :=
  print rule ;;
  print "BASIC STATISTICS" ;;
  print rule ;;
  p <- eval (getitem df col_final_price) ;;
  print ("Total Revenue: $" +++ format_2f true (Fin (Qsum p))) ;;
  p <- eval (getitem df col_final_price) ;;
  print ("Average Transaction Value: $" +++ format_2f false (mean p)) ;;
  p <- eval (getitem df col_final_price) ;;
  print ("Median Transaction Value: $" +++ format_2f false (median p)) ;;
  q <- eval (getitem df col_quantity) ;;
  print ("Total Units Sold: " +++ format_int (Zsum q)) ;;
  print ("Total Transactions: " +++ format_int (len df)) ;;
  c <- eval (getitem df col_customer_id) ;;
  print ("Unique Customers: " +++ format_int (nunique c)) ;;
  d <- eval (getitem df col_discount_percent) ;;
  print ("Average Discount: " +++ format_2f false (mean d) +++ "%") ;;
  lo <- eval (let? t := getitem df col_date in
              inr (timestamp_date (date_min t))) ;;
  hi <- eval (let? t := getitem df col_date in
              inr (timestamp_date (date_max t))) ;;
  print ("Date Range: " +++ date_repr lo +++ " to " +++ date_repr hi) ;;
  print "".

Definition five_columns : list string :=
  ["Total Revenue"; "Avg Price"; "Transactions"; "Units Sold";
   "Avg Discount %"].

(** The frame [product_stats] of [product_analysis], sorted. *)
Definition product_stats (df : DataFrame) : result (Frame string) :=
  let? g := df_groupby df col_product in
  let? f := agg g [(FloatCol col_final_price, [Sum; Mean; Count]);
                   (IntCol col_quantity, [Sum]);
                   (FloatCol col_discount_percent, [Mean])] in
  let? f := set_columns five_columns (frame_round2 f) in
  sort_values_desc "Total Revenue" f.

Definition product_analysis (df : DataFrame) : Py unit :=
  print rule ;;
  print "PRODUCT PERFORMANCE ANALYSIS" ;;
  print rule ;;
  product_stats <- eval (product_stats df) ;;
  print_frame product_stats ;;
  units <- eval (frame_col product_stats "Units Sold") ;;
  best <- eval (idxmax units) ;;
  print (nl +++ "Best Selling Product: " +++ best +++ " ("
           +++ cell_str (smax units) +++ " units)") ;;
  revenue <- eval (frame_col product_stats "Total Revenue") ;;
  top <- eval (idxmax revenue) ;;
  print ("Highest Revenue Product: " +++ top +++ " ($"
           +++ format_2f true (cell_float (smax revenue)) +++ ")") ;;
  print "".

Definition four_columns (avg : string) : list string :=
  ["Total Revenue"; avg; "Transactions"; "Units Sold"].

Definition region_stats (df : DataFrame) : result (Frame string) :=
  let? g := df_groupby df col_region in
  let? f := agg g [(FloatCol col_final_price, [Sum; Mean; Count]);
                   (IntCol col_quantity, [Sum])] in
  let? f := set_columns (four_columns "Avg Transaction") (frame_round2 f) in
  sort_values_desc "Total Revenue" f.

Definition regional_analysis (df : DataFrame) : Py unit :=
  print rule ;;
  print "REGIONAL ANALYSIS" ;;
  print rule ;;
  region_stats <- eval (region_stats df) ;;
  print_frame region_stats ;;
  revenue <- eval (frame_col region_stats "Total Revenue") ;;
  top <- eval (idxmax revenue) ;;
  print (nl +++ "Top Region: " +++ top +++ " ($"
           +++ format_2f true (cell_float (smax revenue)) +++ ")") ;;
  print "".

(** The series [monthly_revenue] and [quarterly_revenue]. *)
Definition monthly_revenue (df : DataFrame) : result (Series Z) :=
  let? g := df_groupby df col_month in
  let? s := grouped_sum g col_final_price in
  inr (series_round2 s).

Definition quarterly_revenue (df : DataFrame) : result (Series Z) :=
  let? g := df_groupby df col_quarter in
  let? s := grouped_sum g col_final_price in
  inr (series_round2 s).

Definition temporal_analysis (df : DataFrame) : Py unit :=
  print rule ;;
  print "TEMPORAL ANALYSIS" ;;
  print rule ;;
  monthly_revenue <- eval (monthly_revenue df) ;;
  print (nl +++ "Monthly Revenue:") ;;
  print_series "final_price" monthly_revenue ;;
  best <- eval (idxmax monthly_revenue) ;;
  print ("Best Month: Month " +++ str_Z best +++ " ($"
           +++ format_2f true (cell_float (smax monthly_revenue)) +++ ")") ;;
  worst <- eval (idxmin monthly_revenue) ;;
  print ("Worst Month: Month " +++ str_Z worst +++ " ($"
           +++ format_2f true (cell_float (smin monthly_revenue)) +++ ")") ;;
  quarterly_revenue <- eval (quarterly_revenue df) ;;
  print (nl +++ "Quarterly Revenue:") ;;
  print_series "final_price" quarterly_revenue ;;
  best <- eval (idxmax quarterly_revenue) ;;
  print ("Best Quarter: Q" +++ str_Z best +++ " ($"
           +++ format_2f true (cell_float (smax quarterly_revenue)) +++ ")") ;;
  print "".

Definition category_stats (df : DataFrame) : result (Frame string) :=
  let? g := df_groupby df col_category in
  let? f := agg g [(FloatCol col_final_price, [Sum; Mean; Count]);
                   (IntCol col_quantity, [Sum]);
                   (FloatCol col_discount_percent, [Mean])] in
  let? f := set_columns five_columns (frame_round2 f) in
  sort_values_desc "Total Revenue" f.

Definition category_analysis (df : DataFrame) : Py unit :=
  print rule ;;
  print "CATEGORY ANALYSIS" ;;
  print rule ;;
  category_stats <- eval (category_stats df) ;;
  print_frame category_stats ;;
  print "".

(** The frame [discount_stats]: it is not sorted by revenue. *)
Definition discount_stats (df : DataFrame) : result (Frame Qc) :=
  let? g := df_groupby df key_discount_percent in
  let? f := agg g [(FloatCol col_final_price, [Sum; Mean; Count]);
                   (IntCol col_quantity, [Sum])] in
  set_columns (four_columns "Avg Price") (frame_round2 f).

(** The loop over [discount_stats.index]. *)
Fixpoint discount_lines (stats : Frame Qc) (total_revenue : Q)
  (index : list Qc) : Py unit :=
  match index with
  | [] => ret tt
  | discount :: index' =>
      revenue <- eval (loc stats discount "Total Revenue") ;;
      let percentage :=
        fmul (fdiv (cell_float revenue) (Fin total_revenue)) (Fin 100) in
      print ("  " +++ kstr discount +++ "% discount: $"
               +++ format_2f true (cell_float revenue) +++ " ("
               +++ format_2f false percentage +++ "% of total revenue)") ;;
      discount_lines stats total_revenue index'
  end.

Definition discount_analysis (df : DataFrame) : Py unit :=
  print rule ;;
  print "DISCOUNT IMPACT ANALYSIS" ;;
  print rule ;;
  discount_stats <- eval (discount_stats df) ;;
  print_frame discount_stats ;;
  p <- eval (getitem df col_final_price) ;;
  let total_revenue := Qsum p in
  print (nl +++ "Revenue Distribution by Discount Level:") ;;
  discount_lines discount_stats total_revenue
    (map fst (frows discount_stats)) ;;
  print "".

Definition payment_stats (df : DataFrame) : result (Frame string) :=
  let? g := df_groupby df col_payment_method in
  let? f := agg g [(FloatCol col_final_price, [Sum; Mean; Count])] in
  let? f := set_columns ["Total Revenue"; "Avg Transaction"; "Count"]
              (frame_round2 f) in
  sort_values_desc "Total Revenue" f.

Definition payment_method_analysis (df : DataFrame) : Py unit :=
  print rule ;;
  print "PAYMENT METHOD ANALYSIS" ;;
  print rule ;;
  payment_stats <- eval (payment_stats df) ;;
  print_frame payment_stats ;;
  print "".

(** [df.groupby(c)['final_price'].sum()]. *)
Definition revenue_by {K : Type} `{Key K} (df : DataFrame) (c : Column K)
  : result (Series K) :=
  let? g := df_groupby df c in
  grouped_sum g col_final_price.

(** [df[df['discount_percent'] <op> 0]['final_price'].mean()]. *)
Definition avg_revenue (df : DataFrame) (test : Q -> bool) : result float :=
  let? sub := select df col_discount_percent test in
  let? p := getitem sub col_final_price in
  inr (mean p).

Definition key_insights (df : DataFrame) : Py unit :=
  print rule ;;
  print "KEY INSIGHTS & RECOMMENDATIONS" ;;
  print rule ;;
  top_product <- eval (let? s := revenue_by df col_product in idxmax s) ;;
  top_product_revenue <-
    eval (let? s := revenue_by df col_product in inr (smax s)) ;;
  top_region <- eval (let? s := revenue_by df col_region in idxmax s) ;;
  avg_revenue_no_discount <- eval (avg_revenue df Qeqb0) ;;
  avg_revenue_with_discount <-
    eval (avg_revenue df (fun d => negb (Qle_bool d 0))) ;;
  top_category <- eval (let? s := revenue_by df col_category in idxmax s) ;;
  print ("1. " +++ top_product +++ " is the top revenue generator ($"
           +++ format_2f true (cell_float top_product_revenue) +++ ")") ;;
  print ("2. " +++ top_region
           +++ " is the strongest market - consider targeted expansion") ;;
  print ("3. " +++ top_category
           +++ " category dominates sales - focus inventory accordingly") ;;
  print ("4. Average transaction without discount: $"
           +++ format_2f false avg_revenue_no_discount) ;;
  print ("   Average transaction with discount: $"
           +++ format_2f false avg_revenue_with_discount) ;;
  c <- eval (getitem df col_customer_id) ;;
  print ("5. Total unique customers: " +++ str_Z (nunique c)
           +++ " - opportunity for retention programs") ;;
  print "".

Definition main (fs : FileSystem) : Py unit :=
  print (nl +++ rule) ;;
  print "E-COMMERCE SALES ANALYSIS 2025" ;;
  print (rule +++ nl) ;;
  df <- eval (load_data fs default_path) ;;
  print ("Dataset loaded successfully: " +++ str_Z (len df) +++ " records"
           +++ nl) ;;
  basic_statistics df ;;
  product_analysis df ;;
  regional_analysis df ;;
  temporal_analysis df ;;
  category_analysis df ;;
  discount_analysis df ;;
  payment_method_analysis df ;;
  key_insights df ;;
  print rule ;;
  print "Analysis Complete!" ;;
  print rule.

(** The run of the script from an empty standard output, and the exit
    status of the interpreter: 1 when an exception reaches the top. *)
Definition run (fs : FileSystem) : stdout * result unit := main fs [].

Definition exit_status (r : result unit) : Z :=
  match r with
  | inr _ => 0
  | inl _ => 1
  end.

(** ** Vocabulary of the properties *)

(** The columns that the analyses read from the file. *)
Definition required_columns : list string :=
  ["date"; "product"; "category"; "region"; "payment_method"; "customer_id";
   "quantity"; "discount_percent"; "final_price"].

Definition complete (names : list string) : bool :=
  forallb (fun c => has_name c names) required_columns.

(** A table as [load_data] returns it from a file with every column. *)
Definition loaded (df : DataFrame) : bool :=
  complete (columns df) && has_col df "month" && has_col df "quarter".

(** The file system with one file at the default path. *)
Definition single_file (f : CsvFile) : FileSystem :=
  fun path => if String.eqb path default_path then Some f else None.

(** An amount in whole cents: at most two decimals. *)
Definition whole_cents (q : Q) : bool :=
  Qeq_bool (q * 100) (inject_Z (Qfloor (q * 100))).

Definition cell_Q (c : cell) : Q :=
  match cell_float c with
  | Fin q => q
  | _ => 0%Q
  end.


(** The values of a series, and a column of a frame that was computed. *)
Definition values {K : Type} (s : Series K) : list cell := map snd s.



(** The total of a column of amounts and of a column of counts. *)
Definition column_sum (cs : list cell) : Q := Qsum (map cell_Q cs).


(** [df['final_price'].sum()]. *)
Definition total_revenue (df : DataFrame) : Q :=
  Qsum (map final_price (rows df)).









(** A statement that returns normally and whose output does not depend
    on what was printed before. *)
Definition completes (m : Py unit) : Prop :=
  forall out, m out = (out ++ fst (m []), inr tt).

(** What the run prints before it loads the file. *)
Definition banner : stdout :=
  [Text (nl +++ rule); Text "E-COMMERCE SALES ANALYSIS 2025";
   Text (rule +++ nl)].

(** The line printed after a successful load. *)
Definition loaded_line (df : DataFrame) : printed :=
  Text ("Dataset loaded successfully: " +++ str_Z (len df) +++ " records"
          +++ nl).

(** A statement that ends with an exception. *)
Definition fails {A : Type} (m : Py A) : Prop :=
  forall out, exists e, snd (m out) = inl e.


(** Loading fails, and the run stops with that exception after the
    banner. *)
Definition load_error_reported (fs : FileSystem) : Prop :=
  exists e, load_data fs default_path = inl e /\ run fs = (banner, inl e).



(** ** Example tables *)

(** The three sales of the scenario of the specification. *)
Definition scenario_records : list CsvRecord :=
  [mkCsvRecord (mkDate 2025 1 15) "Product A" "X" "North" "Card" "c1" 2 0 100;
   mkCsvRecord (mkDate 2025 2 15) "Product B" "Y" "South" "Cash" "c2" 1 10 50;
   mkCsvRecord (mkDate 2025 5 15) "Product A" "X" "North" "Card" "c1" 1 0 30].

Definition scenario_file : CsvFile :=
  mkCsvFile required_columns scenario_records.

Definition scenario_df : DataFrame := table_of_file scenario_file.

(** One sale without a discount. *)
Definition single_file_example : CsvFile :=
  mkCsvFile required_columns
    [mkCsvRecord (mkDate 2025 1 15) "Product A" "X" "North" "Card" "c1" 2 0
       100].


(** A header and no record. *)
Definition empty_file : CsvFile := mkCsvFile required_columns [].

Definition empty_df : DataFrame := table_of_file empty_file.



(** The single sale in a file that has no [product] column. *)
Definition no_product_file : CsvFile :=
  mkCsvFile
    ["date"; "category"; "region"; "payment_method"; "customer_id";
     "quantity"; "discount_percent"; "final_price"]
    (records single_file_example).

(** The single sale in a file that has no [date] column. *)
Definition no_date_file : CsvFile :=
  mkCsvFile
    ["product"; "category"; "region"; "payment_method"; "customer_id";
     "quantity"; "discount_percent"; "final_price"]
    (records single_file_example).

(** No file at all. *)
Definition no_file : FileSystem := fun _ => None.

(** ** Vocabulary of the proofs *)

(** What the order of a key type must satisfy. *)
Class KeyLaws (K : Type) `{Key K} : Prop := {
  kcmp_refl : forall a : K, kcmp a a = Eq;
  kcmp_eq : forall a b : K, kcmp a b = Eq -> a = b;
  kcmp_gt : forall a b : K, kcmp a b = Gt -> kcmp b a = Lt;
  kcmp_trans :
    forall a b c : K, kcmp a b = Lt -> kcmp b c = Lt -> kcmp a c = Lt
}.

(** The strict order of the keys. *)
Definition klt {K : Type} `{Key K} (a b : K) : Prop := kcmp a b = Lt.

(** The pattern shared by the breakdowns: group, aggregate, round, name
    the columns, and sort by revenue when [sorted] is set. *)
Definition breakdown {K : Type} `{Key K} (sorted : bool) (df : DataFrame)
  (c : Column K) (spec : agg_spec) (names : list string)
  : result (Frame K) :=
  let? g := df_groupby df c in
  let? f := agg g spec in
  let? f := set_columns names (frame_round2 f) in
  if sorted then sort_values_desc "Total Revenue" f else inr f.

(** The rows of the frame before it is sorted. *)
Definition stats_rows {K : Type} (spec : agg_spec) (gs : list (K * list Row))
  : list (K * list cell) :=
  map (fun kr => (fst kr, map cell_round2 (agg_row spec (snd kr)))) gs.

(** The entry of [final_price], the first of every dictionary. *)
Definition price_stats : NumColumn * list stat :=
  (FloatCol col_final_price, [Sum; Mean; Count]).

(** The cells of the columns that every breakdown starts with. *)
Definition revenue_cell (rs : list Row) : cell :=
  CF (Fin (round2 (Qsum (map final_price rs)))).

Definition count_cell (rs : list Row) : cell :=
  CI (Z.of_nat (List.length rs)).

(** The order that [sort_values] establishes on the rows. *)
Definition revenue_desc {K : Type} (a b : K * list cell) : Prop :=
  fleb (cell_float (cell_at 0 (snd b))) (cell_float (cell_at 0 (snd a)))
  = true.

(** The breakdowns of the script are instances of the pattern. *)
Definition with_units_and_discount : agg_spec :=
  [(IntCol col_quantity, [Sum]); (FloatCol col_discount_percent, [Mean])].

Definition with_units : agg_spec := [(IntCol col_quantity, [Sum])].

(** A statement only adds to what has been printed. *)
Definition keeps_output {A : Type} (m : Py A) : Prop :=
  forall out, exists more, fst (m out) = out ++ more.




(** The sections, in the order of [main]. *)
Definition sections (df : DataFrame) : Py unit :=
  basic_statistics df ;;
  product_analysis df ;;
  regional_analysis df ;;
  temporal_analysis df ;;
  category_analysis df ;;
  discount_analysis df ;;
  payment_method_analysis df ;;
  key_insights df ;;
  print rule ;;
  print "Analysis Complete!" ;;
  print rule.

(** ** Vocabulary of the further properties *)

(** Two keys are the same key. *)
Definition key_eqb {K : Type} `{Key K} (a b : K) : bool :=
  match kcmp a b with
  | Eq => true
  | _ => false
  end.








(** The line that closes the report. *)
Definition closing_line : printed := Text "Analysis Complete!".

Definition not_closing (p : printed) : Prop := p <> closing_line.

(** Everything a statement prints satisfies [P], whether it returns or
    raises. *)
Definition adds_only (P : printed -> Prop) {A : Type} (m : Py A) : Prop :=
  forall out, exists more, fst (m out) = out ++ more /\ Forall P more.

(** A statement that returns has printed the closing line. *)
Definition closes_on_return {A : Type} (m : Py A) : Prop :=
  forall out, (exists a, snd (m out) = inr a) -> In closing_line (fst (m out)).

(** A statement that raises has not printed the closing line, when it
    was not printed before. *)
Definition silent_on_failure {A : Type} (m : Py A) : Prop :=
  forall out,
    Forall not_closing out ->
    (exists e, snd (m out) = inl e) ->
    Forall not_closing (fst (m out)).





(** The quarter of a month number, as [Series.dt.quarter] has it. *)
Definition month_quarter (m : Z) : Z := (m - 1) / 3 + 1.

(** The entries of the monthly series whose month lies in quarter [q]. *)
Definition months_of_quarter (q : Z) (monthly : Series Z) : Series Z :=
  filter (fun kv => month_quarter (fst kv) =? q) monthly.

(** * Properties *)

Local Open Scope Q_scope.

(** ** Sums and rounding *)

Lemma Qsum_app (l1 l2 : list Q) : Qsum (l1 ++ l2) == Qsum l1 + Qsum l2.
Proof.
  induction l1 as [|x l1 IH]; simpl.
  - ring.
  - rewrite IH. ring.
Qed.

Lemma Qsum_perm (l1 l2 : list Q) : Permutation l1 l2 -> Qsum l1 == Qsum l2.
Proof.
  induction 1; simpl.
  - reflexivity.
  - rewrite IHPermutation. reflexivity.
  - ring.
  - etransitivity; eassumption.
Qed.


Lemma rint_Z (n : Z) : rint (inject_Z n) = n.
Proof.
  unfold rint. rewrite Qfloor_Z.
  assert (E : (inject_Z n - inject_Z n ?= 1 # 2)%Q = Lt).
  { rewrite <- Qlt_alt. lra. }
  rewrite E. reflexivity.
Qed.

Lemma rint_comp (x y : Q) : x == y -> rint x = rint y.
Proof.
  intros E. unfold rint. rewrite (Qfloor_comp x y E).
  assert (E' : x - inject_Z (Qfloor y) == y - inject_Z (Qfloor y))
    by (rewrite E; reflexivity).
  rewrite (Qcompare_comp _ _ E' (1#2) (1#2) (Qeq_refl _)). reflexivity.
Qed.


Lemma whole_cents_spec (q : Q) :
  whole_cents q = true <-> exists n, q == inject_Z n / 100.
Proof.
  unfold whole_cents. rewrite Qeq_bool_iff. split.
  - intros E. exists (Qfloor (q * 100)). rewrite <- E. field.
  - intros [n E]. assert (E' : q * 100 == inject_Z n) by (rewrite E; field).
    rewrite (Qfloor_comp _ _ E'), Qfloor_Z. exact E'.
Qed.

Lemma round2_cents (q : Q) : whole_cents q = true -> round2 q == q.
Proof.
  intros H. apply whole_cents_spec in H. destruct H as [n E].
  unfold round2.
  assert (E' : q * 100 == inject_Z n) by (rewrite E; field).
  rewrite (rint_comp _ _ E'), rint_Z. rewrite E. reflexivity.
Qed.


Lemma Qsum_cents (l : list Q) :
  Forall (fun q => whole_cents q = true) l -> whole_cents (Qsum l) = true.
Proof.
  induction 1 as [|q l Hq _ IH]; simpl.
  - reflexivity.
  - apply whole_cents_spec in Hq. apply whole_cents_spec in IH.
    destruct Hq as [a Ea], IH as [b Eb].
    apply whole_cents_spec. exists (a + b)%Z.
    rewrite Ea, Eb, inject_Z_plus. field.
Qed.

(** ** Sorting *)

Section SortFacts.
Context {A : Type} (leb : A -> A -> bool).

Lemma insert_by_perm (x : A) (l : list A) :
  Permutation (insert_by leb x l) (x :: l).
Proof.
  induction l as [|y l IH]; simpl.
  - reflexivity.
  - destruct (leb x y).
    + reflexivity.
    + rewrite IH. apply perm_swap.
Qed.

Lemma sort_by_perm (l : list A) : Permutation (sort_by leb l) l.
Proof.
  induction l as [|x l IH]; simpl.
  - reflexivity.
  - rewrite insert_by_perm. constructor. exact IH.
Qed.

(** [leb] is total on the values that satisfy [P]. *)
Variable P : A -> Prop.
Hypothesis leb_total :
  forall a b, P a -> P b -> leb a b = false -> leb b a = true.

Let R (a b : A) : Prop := leb a b = true.

Lemma insert_by_sorted (x : A) (l : list A) :
  P x -> Forall P l -> Sorted R l -> Sorted R (insert_by leb x l).
Proof.
  intros Px Pl Hs. induction l as [|y l IH]; simpl.
  - repeat constructor.
  - destruct (leb x y) eqn:E.
    + constructor; [assumption|]. constructor. exact E.
    + inversion Pl as [|? ? Py Pl']; subst.
      inversion Hs as [|? ? Hs' Hd]; subst.
      constructor; [apply IH; assumption|].
      destruct l as [|z l]; simpl.
      * constructor. apply leb_total; assumption.
      * destruct (leb x z).
        -- constructor. apply leb_total; assumption.
        -- inversion Hd; subst. constructor. assumption.
Qed.

Lemma sort_by_sorted (l : list A) : Forall P l -> Sorted R (sort_by leb l).
Proof.
  induction 1 as [|x l Px Pl IH]; simpl.
  - constructor.
  - apply insert_by_sorted; try assumption.
    apply (Permutation_Forall (Permutation_sym (sort_by_perm l))). exact Pl.
Qed.
End SortFacts.

Lemma filter_all {A : Type} (p : A -> bool) (l : list A) :
  Forall (fun a => p a = true) l -> filter p l = l.
Proof.
  induction 1 as [|x l Hx _ IH]; simpl.
  - reflexivity.
  - rewrite Hx, IH. reflexivity.
Qed.

Lemma filter_none {A : Type} (p : A -> bool) (l : list A) :
  Forall (fun a => p a = false) l -> filter p l = [].
Proof.
  induction 1 as [|x l Hx _ IH]; simpl.
  - reflexivity.
  - rewrite Hx. exact IH.
Qed.

(** ** Order on floats *)

Lemma fleb_total (x y : float) :
  isnan x = false -> isnan y = false -> fleb x y = false -> fleb y x = true.
Proof.
  destruct x as [a| | |], y as [b| | |]; simpl; try congruence.
  intros _ _ E. apply Qle_bool_iff.
  destruct (Qle_bool a b) eqn:E'; [discriminate|].
  destruct (Qlt_le_dec b a) as [L|L].
  - apply Qlt_le_weak. exact L.
  - apply Qle_bool_iff in L. congruence.
Qed.

Lemma fleb_trans (x y z : float) :
  fleb x y = true -> fleb y z = true -> fleb x z = true.
Proof.
  destruct x as [a| | |], y as [b| | |], z as [c| | |]; simpl;
    try congruence.
  rewrite !Qle_bool_iff. apply Qle_trans.
Qed.



(** ** Grouping *)

Section GroupbyFacts.
Context {K : Type} `{Key K} {A : Type}.

Lemma add_to_group_perm (k : K) (r : A) (gs : list (K * list A)) :
  Permutation (flat_map snd (add_to_group k r gs)) (r :: flat_map snd gs).
Proof.
  induction gs as [|[k' rs] gs IH]; simpl.
  - reflexivity.
  - destruct (kcmp k k'); simpl.
    + reflexivity.
    + reflexivity.
    + rewrite IH. symmetry. apply Permutation_middle.
Qed.

(** Grouping loses and invents no row. *)
Lemma groupby_perm (key : A -> K) (df : list A) :
  Permutation (flat_map snd (groupby key df)) df.
Proof.
  induction df as [|r df IH]; simpl.
  - reflexivity.
  - rewrite add_to_group_perm. constructor. exact IH.
Qed.

Lemma add_to_group_nonempty (k : K) (r : A) (gs : list (K * list A)) :
  Forall (fun g => snd g <> []) gs ->
  Forall (fun g => snd g <> []) (add_to_group k r gs).
Proof.
  induction 1 as [|[k' rs] gs Hg Hgs IH]; simpl.
  - repeat constructor. discriminate.
  - destruct (kcmp k k').
    + constructor; [discriminate | assumption].
    + constructor; [discriminate|]. constructor; assumption.
    + constructor; assumption.
Qed.

(** A group with no row never appears. *)
Lemma groupby_nonempty (key : A -> K) (df : list A) :
  Forall (fun g => snd g <> []) (groupby key df).
Proof.
  induction df as [|r df IH]; simpl.
  - constructor.
  - apply add_to_group_nonempty. exact IH.
Qed.



Lemma add_to_group_keys (k : K) (r : A) (gs : list (K * list A)) (x : K) :
  In x (map fst (add_to_group k r gs)) -> x = k \/ In x (map fst gs).
Proof.
  induction gs as [|[k' rs] gs IH]; simpl.
  - intros [E|[]]. left. congruence.
  - destruct (kcmp k k'); simpl.
    + auto.
    + intros [E|[E|I]]; auto.
    + intros [E|I]; auto. destruct (IH I); auto.
Qed.
End GroupbyFacts.

Section GroupbyOrder.
Context {K : Type} `{KeyLaws K} {A : Type}.

Lemma add_to_group_sorted (k : K) (r : A) (gs : list (K * list A)) :
  StronglySorted klt (map fst gs) ->
  StronglySorted klt (map fst (add_to_group k r gs)).
Proof.
  induction gs as [|[k' rs] gs IH]; simpl; intros Hs.
  - repeat constructor.
  - inversion Hs as [|? ? Hs' Hall]; subst.
    destruct (kcmp k k') eqn:E; simpl.
    + constructor; assumption.
    + constructor; [assumption|]. constructor; [exact E|].
      eapply Forall_impl; [|exact Hall].
      intros x Hx. eapply kcmp_trans; eassumption.
    + constructor; [apply IH; assumption|].
      apply Forall_forall. intros x Hx.
      destruct (add_to_group_keys _ _ _ _ Hx) as [->|I].
      * apply kcmp_gt. exact E.
      * rewrite Forall_forall in Hall. apply Hall. exact I.
Qed.

(** The keys of the groups are strictly ascending. *)
Lemma groupby_sorted (key : A -> K) (df : list A) :
  StronglySorted klt (map fst (groupby key df)).
Proof.
  induction df as [|r df IH]; simpl.
  - constructor.
  - apply add_to_group_sorted. exact IH.
Qed.

Lemma add_to_group_same_key (key : A -> K) (r : A) (gs : list (K * list A)) :
  Forall (fun g => Forall (fun x => key x = fst g) (snd g)) gs ->
  Forall (fun g => Forall (fun x => key x = fst g) (snd g))
    (add_to_group (key r) r gs).
Proof.
  induction 1 as [|[k' rs] gs Hg Hgs IH]; simpl.
  - repeat constructor.
  - destruct (kcmp (key r) k') eqn:E.
    + apply kcmp_eq in E. constructor; [|assumption].
      simpl in *. constructor; assumption.
    + constructor; [repeat constructor|]. constructor; assumption.
    + constructor; assumption.
Qed.

(** Every row of a group has the key of the group. *)
Lemma groupby_same_key (key : A -> K) (df : list A) :
  Forall (fun g => Forall (fun x => key x = fst g) (snd g)) (groupby key df).
Proof.
  induction df as [|r df IH]; simpl.
  - constructor.
  - apply add_to_group_same_key. exact IH.
Qed.
End GroupbyOrder.

#[export] Instance KeyLaws_Z : KeyLaws Z.
Proof.
  split; simpl.
  - apply Z.compare_refl.
  - apply Z.compare_eq.
  - intros a b E. apply Z.compare_lt_iff. apply Z.compare_gt_iff in E. exact E.
  - intros a b c. rewrite !Z.compare_lt_iff. apply Z.lt_trans.
Qed.

#[export] Instance KeyLaws_Qc : KeyLaws Qc.
Proof.
  split; simpl.
  - intros a. apply Qceq_alt. reflexivity.
  - intros a b. apply Qceq_alt.
  - intros a b E. apply Qclt_alt. apply Qcgt_alt in E. exact E.
  - intros a b c. rewrite <- !Qclt_alt. apply Qclt_trans.
Qed.

(** ** Columns of a loaded table *)

Lemma loaded_columns (df : DataFrame) :
  loaded df = true ->
  has_col df "date" = true /\ has_col df "product" = true /\
  has_col df "category" = true /\ has_col df "region" = true /\
  has_col df "payment_method" = true /\ has_col df "customer_id" = true /\
  has_col df "quantity" = true /\ has_col df "discount_percent" = true /\
  has_col df "final_price" = true /\ has_col df "month" = true /\
  has_col df "quarter" = true.
Proof.
  unfold loaded, complete, required_columns, forallb, has_col.
  rewrite !andb_true_iff. tauto.
Qed.

Ltac columns_of H :=
  let C := fresh "C" in
  pose proof (loaded_columns _ H) as C;
  unfold has_col in C;
  destruct C as (Cdate & Cproduct & Ccategory & Cregion & Cpayment &
                 Ccustomer & Cquantity & Cdiscount & Cprice & Cmonth &
                 Cquarter).

(** ** The statistics of a breakdown *)

Lemma stats_row_head (rest : agg_spec) (rs : list Row) :
  map cell_round2 (agg_row (price_stats :: rest) rs) =
  revenue_cell rs
    :: CF (fround2 (mean (map final_price rs)))
    :: count_cell rs :: map cell_round2 (agg_row rest rs).
Proof. reflexivity. Qed.

Lemma breakdown_unsorted {K : Type} `{Key K} (df : DataFrame) (c : Column K)
  (spec : agg_spec) (names : list string) :
  has_name (cname c) (columns df) = true ->
  missing_column (columns df) spec = None ->
  List.length names = List.length (agg_labels spec) ->
  breakdown false df c spec names =
  inr (mkFrame names (stats_rows spec (groupby (cget c) (rows df)))).
Proof.
  intros Hc Hm Hn. unfold breakdown, df_groupby, has_col, agg. rewrite Hc.
  simpl. rewrite Hm. simpl. unfold set_columns. simpl.
  rewrite Hn, Nat.eqb_refl. simpl. unfold stats_rows.
  rewrite map_map. reflexivity.
Qed.

Lemma breakdown_sorted_unfold {K : Type} `{Key K} (df : DataFrame)
  (c : Column K) (spec : agg_spec) (names : list string) :
  breakdown true df c spec names =
  let? f := breakdown false df c spec names in
  sort_values_desc "Total Revenue" f.
Proof.
  unfold breakdown.
  destruct (df_groupby df c) as [e|g]; [reflexivity|]. simpl.
  destruct (agg g spec) as [e|f]; [reflexivity|]. simpl.
  destruct (set_columns names (frame_round2 f)); reflexivity.
Qed.

Lemma sort_values_desc_spec {K : Type} (names : list string)
  (body : list (K * list cell)) :
  index_of "Total Revenue" names = Some O ->
  Forall (fun kr => isnan (cell_float (cell_at 0 (snd kr))) = false) body ->
  exists body',
    sort_values_desc "Total Revenue" (mkFrame names body)
    = inr (mkFrame names body') /\
    Permutation body' body /\ StronglySorted revenue_desc body'.
Proof.
  intros Hi Hn. unfold sort_values_desc. simpl. rewrite Hi.
  rewrite filter_all, filter_none, app_nil_r.
  - eexists. split; [reflexivity|]. split; [apply sort_by_perm|].
    apply Sorted_StronglySorted.
    + intros a b c. unfold revenue_desc. intros Hab Hbc.
      eapply fleb_trans; eassumption.
    + apply (sort_by_sorted _
               (fun kr => isnan (cell_float (cell_at 0 (snd kr))) = false)).
      * intros a b Ha Hb. apply fleb_total; assumption.
      * exact Hn.
  - exact Hn.
  - eapply Forall_impl; [|exact Hn]. simpl. intros kr E. rewrite E.
    reflexivity.
Qed.



Lemma stats_rows_notnan {K : Type} (rest : agg_spec)
  (gs : list (K * list Row)) :
  Forall (fun kr => isnan (cell_float (cell_at 0 (snd kr))) = false)
    (stats_rows (price_stats :: rest) gs).
Proof.
  unfold stats_rows. apply Forall_forall. intros kr Hin.
  apply in_map_iff in Hin. destruct Hin as [g [<- _]]. reflexivity.
Qed.

(** A breakdown of a loaded table succeeds; its rows are those of the
    groups, in decreasing order of revenue when it is sorted. *)
Lemma breakdown_sorted {K : Type} `{Key K} (df : DataFrame) (c : Column K)
  (rest : agg_spec) (names : list string) :
  has_name (cname c) (columns df) = true ->
  missing_column (columns df) (price_stats :: rest) = None ->
  List.length names = List.length (agg_labels (price_stats :: rest)) ->
  index_of "Total Revenue" names = Some O ->
  exists body,
    breakdown true df c (price_stats :: rest) names = inr (mkFrame names body)
    /\ Permutation body
         (stats_rows (price_stats :: rest) (groupby (cget c) (rows df)))
    /\ StronglySorted revenue_desc body.
Proof.
  intros Hc Hm Hn Hi. rewrite breakdown_sorted_unfold.
  rewrite (breakdown_unsorted df c _ names Hc Hm Hn). simpl.
  apply sort_values_desc_spec; [exact Hi|]. apply stats_rows_notnan.
Qed.

(** ** Totals over the groups *)

Lemma Qsum_flat_map {A : Type} (v : A -> Q) {K : Type}
  (gs : list (K * list A)) :
  Qsum (map (fun g => Qsum (map v (snd g))) gs)
  == Qsum (map v (flat_map snd gs)).
Proof.
  induction gs as [|g gs IH]; simpl.
  - reflexivity.
  - rewrite map_app, Qsum_app, IH. reflexivity.
Qed.




Lemma Qsum_ext_in {A : Type} (f g : A -> Q) (l : list A) :
  (forall a, In a l -> f a == g a) -> Qsum (map f l) == Qsum (map g l).
Proof.
  induction l as [|a l IH]; simpl; intros E.
  - reflexivity.
  - rewrite (E a) by auto. rewrite IH by auto. reflexivity.
Qed.









Lemma product_stats_breakdown (df : DataFrame) :
  product_stats df
  = breakdown true df col_product (price_stats :: with_units_and_discount)
      five_columns.
Proof. reflexivity. Qed.

Lemma region_stats_breakdown (df : DataFrame) :
  region_stats df
  = breakdown true df col_region (price_stats :: with_units)
      (four_columns "Avg Transaction").
Proof. reflexivity. Qed.




Lemma missing_none_5 (names : list string) :
  has_name "final_price" names = true ->
  has_name "quantity" names = true ->
  has_name "discount_percent" names = true ->
  missing_column names (price_stats :: with_units_and_discount) = None.
Proof.
  intros H1 H2 H3. simpl. rewrite H1, H2, H3. reflexivity.
Qed.

Lemma missing_none_4 (names : list string) :
  has_name "final_price" names = true ->
  has_name "quantity" names = true ->
  missing_column names (price_stats :: with_units) = None.
Proof.
  intros H1 H2. simpl. rewrite H1, H2. reflexivity.
Qed.


(** The revenue series of the temporal analysis and of the insights. *)
Lemma revenue_by_loaded {K : Type} `{Key K} (df : DataFrame) (c : Column K) :
  has_name (cname c) (columns df) = true ->
  has_name "final_price" (columns df) = true ->
  revenue_by df c
  = inr (map (fun kr => (fst kr, CF (Fin (Qsum (map final_price (snd kr))))))
           (groupby (cget c) (rows df))).
Proof.
  intros Hc Hp. unfold revenue_by, df_groupby, grouped_sum, has_col.
  rewrite Hc. simpl. rewrite Hp. reflexivity.
Qed.

Lemma rounded_revenue_loaded (df : DataFrame) (c : Column Z) :
  has_name (cname c) (columns df) = true ->
  has_name "final_price" (columns df) = true ->
  (let? g := df_groupby df c in
   let? s := grouped_sum g col_final_price in
   inr (series_round2 s))
  = inr (map (fun kr => (fst kr, revenue_cell (snd kr)))
           (groupby (cget c) (rows df))).
Proof.
  intros Hc Hp. unfold df_groupby, grouped_sum, has_col.
  rewrite Hc. simpl. rewrite Hp. simpl. unfold series_round2.
  rewrite map_map. reflexivity.
Qed.

Lemma monthly_revenue_loaded (df : DataFrame) :
  loaded df = true ->
  monthly_revenue df
  = inr (map (fun kr => (fst kr, revenue_cell (snd kr)))
           (groupby month (rows df))).
Proof.
  intros L. columns_of L.
  apply (rounded_revenue_loaded df col_month); assumption.
Qed.

Lemma quarterly_revenue_loaded (df : DataFrame) :
  loaded df = true ->
  quarterly_revenue df
  = inr (map (fun kr => (fst kr, revenue_cell (snd kr)))
           (groupby quarter (rows df))).
Proof.
  intros L. columns_of L.
  apply (rounded_revenue_loaded df col_quarter); assumption.
Qed.



(** ** Statements that only add to standard output *)

Lemma keeps_ret {A : Type} (a : A) : keeps_output (ret a).
Proof. intros out. exists []. simpl. rewrite app_nil_r. reflexivity. Qed.

Lemma keeps_eval {A : Type} (r : result A) : keeps_output (eval r).
Proof. intros out. exists []. simpl. rewrite app_nil_r. reflexivity. Qed.

Lemma keeps_print (s : string) : keeps_output (print s).
Proof. intros out. exists [Text s]. reflexivity. Qed.

Lemma keeps_print_frame {K : Type} `{Key K} (f : Frame K) :
  keeps_output (print_frame f).
Proof. intros out. exists [table_of f]. reflexivity. Qed.

Lemma keeps_print_series {K : Type} `{Key K} (name : string) (s : Series K) :
  keeps_output (print_series name s).
Proof. intros out. exists [series_table name s]. reflexivity. Qed.

Lemma keeps_bind {A B : Type} (m : Py A) (f : A -> Py B) :
  keeps_output m -> (forall a, keeps_output (f a)) -> keeps_output (bind m f).
Proof.
  intros Hm Hf out. unfold bind. destruct (Hm out) as [more1 E1].
  destruct (m out) as [out1 [e|a]]; simpl in *.
  - exists more1. exact E1.
  - destruct (Hf a out1) as [more2 E2]. exists (more1 ++ more2).
    rewrite E2, E1, app_assoc. reflexivity.
Qed.

Lemma keeps_discount_lines (stats : Frame Qc) (total : Q) (index : list Qc) :
  keeps_output (discount_lines stats total index).
Proof.
  induction index as [|d index IH]; cbn [discount_lines].
  - apply keeps_ret.
  - apply keeps_bind; [apply keeps_eval|]. intros revenue.
    apply keeps_bind; [apply keeps_print|]. intros _. exact IH.
Qed.

Create HintDb keeps.
#[export] Hint Resolve keeps_ret keeps_eval keeps_print keeps_print_frame
  keeps_print_series keeps_discount_lines : keeps.

Ltac keeps :=
  repeat (apply keeps_bind; [|intros]); auto with keeps.

(** What was printed stays printed. *)
Lemma keeps_in {A : Type} (m : Py A) (x : printed) (out : stdout) :
  keeps_output m -> In x out -> In x (fst (m out)).
Proof.
  intros Hm Hx. destruct (Hm out) as [more E]. rewrite E.
  apply in_or_app. left. exact Hx.
Qed.

Lemma in_last {A : Type} (x : A) (l : list A) : In x (l ++ [x]).
Proof. apply in_or_app. right. left. reflexivity. Qed.

(** One step of a statement. *)
Lemma bind_print {B : Type} (s : string) (k : unit -> Py B) (out : stdout) :
  bind (print s) k out = k tt (out ++ [Text s]).
Proof. reflexivity. Qed.

Lemma bind_print_frame {K : Type} `{Key K} {B : Type} (f : Frame K)
  (k : unit -> Py B) (out : stdout) :
  bind (print_frame f) k out = k tt (out ++ [table_of f]).
Proof. reflexivity. Qed.

Lemma bind_print_series {K : Type} `{Key K} {B : Type} (name : string)
  (s : Series K) (k : unit -> Py B) (out : stdout) :
  bind (print_series name s) k out = k tt (out ++ [series_table name s]).
Proof. reflexivity. Qed.

Lemma bind_eval_inr {A B : Type} (a : A) (k : A -> Py B) (out : stdout) :
  bind (eval (inr a)) k out = k a out.
Proof. reflexivity. Qed.

Lemma bind_eval_inl {A B : Type} (e : exn) (k : A -> Py B) (out : stdout) :
  bind (eval (inl e)) k out = (out, inl e).
Proof. reflexivity. Qed.

Ltac step :=
  first [ rewrite bind_print | rewrite bind_print_frame
        | rewrite bind_print_series | rewrite bind_eval_inr
        | rewrite bind_eval_inl ];
  cbv beta.







(** ** Conservation of totals *)







(** ** Order of the rows *)



(** ** Extreme values of a series *)


Section Best.
Context {K : Type}.
Variables better atleast : float -> float -> bool.
Hypothesis better_atleast :
  forall x y, better x y = true -> atleast x y = true.
Hypothesis not_better :
  forall x y, isnan x = false -> isnan y = false ->
              better x y = false -> atleast y x = true.
Hypothesis atleast_trans :
  forall x y z, atleast x y = true -> atleast y z = true ->
                atleast x z = true.
Hypothesis atleast_refl : forall x, isnan x = false -> atleast x x = true.



End Best.



(** On an empty series [idxmax] raises. *)
Lemma idxmax_empty {K : Type} :
  idxmax (@nil (K * cell))
  = inl (ValueError "attempt to get argmax of an empty sequence").
Proof. reflexivity. Qed.

(** ** The reports of the sections on a table with rows *)






Ltac tidy := rewrite <- ?app_assoc; reflexivity.






Lemma getitem_loaded {A : Type} (df : DataFrame) (c : Column A) :
  has_name (cname c) (columns df) = true ->
  getitem df c = inr (map (cget c) (rows df)).
Proof.
  intros Hc. unfold getitem, has_col. rewrite Hc. reflexivity.
Qed.

Lemma completes_intro (m : Py unit) (lines : stdout) :
  (forall out, m out = (out ++ lines, inr tt)) -> completes m.
Proof.
  intros E out. rewrite (E []), (E out). reflexivity.
Qed.



(** The first section prints its eight figures, on a table without
    rows too: the means are NaN and the date range is NaT. *)
Lemma basic_statistics_report (df : DataFrame) :
  loaded df = true ->
  forall out,
    basic_statistics df out
    = (out ++
       [Text rule; Text "BASIC STATISTICS"; Text rule;
        Text ("Total Revenue: $"
                +++ format_2f true (Fin (total_revenue df)));
        Text ("Average Transaction Value: $"
                +++ format_2f false (mean (map final_price (rows df))));
        Text ("Median Transaction Value: $"
                +++ format_2f false (median (map final_price (rows df))));
        Text ("Total Units Sold: "
                +++ format_int (Zsum (map quantity (rows df))));
        Text ("Total Transactions: " +++ format_int (len df));
        Text ("Unique Customers: "
                +++ format_int (nunique (map customer_id (rows df))));
        Text ("Average Discount: "
                +++ format_2f false (mean (map discount_percent (rows df)))
                +++ "%");
        Text ("Date Range: "
                +++ date_repr (date_min (map date (rows df))) +++ " to "
                +++ date_repr (date_max (map date (rows df))));
        Text ""],
       inr tt).
Proof.
  intros L out. columns_of L. unfold basic_statistics.
  rewrite (getitem_loaded df col_final_price Cprice),
    (getitem_loaded df col_quantity Cquantity),
    (getitem_loaded df col_customer_id Ccustomer),
    (getitem_loaded df col_discount_percent Cdiscount),
    (getitem_loaded df col_date Cdate).
  cbn [rbind cget col_date col_final_price col_quantity col_customer_id
       col_discount_percent timestamp_date].
  repeat step. unfold print. tidy.
Qed.









(** ** Loading *)

Lemma has_name_set_item_keep (c x : string) (names : list string) :
  has_name c names = true -> has_name c (set_item x names) = true.
Proof.
  intros Hc. unfold set_item. destruct (has_name x names); [exact Hc|].
  unfold has_name in *. rewrite existsb_app, Hc. reflexivity.
Qed.

Lemma has_name_set_item_new (x : string) (names : list string) :
  has_name x (set_item x names) = true.
Proof.
  unfold set_item. destruct (has_name x names) eqn:E; [exact E|].
  unfold has_name. rewrite existsb_app. simpl.
  rewrite String.eqb_refl, orb_true_r. reflexivity.
Qed.

Lemma complete_date (names : list string) :
  complete names = true -> has_name "date" names = true.
Proof.
  unfold complete, required_columns, forallb. rewrite !andb_true_iff. tauto.
Qed.

Lemma complete_set_item (x : string) (names : list string) :
  complete names = true -> complete (set_item x names) = true.
Proof.
  unfold complete. rewrite !forallb_forall. intros Hc c Hin.
  apply has_name_set_item_keep, Hc, Hin.
Qed.

(** A file with every column loads, and the table has the derived
    columns too. *)
Lemma load_data_complete (fs : FileSystem) (path : string) (f : CsvFile) :
  fs path = Some f -> complete (header f) = true ->
  load_data fs path = inr (table_of_file f)
  /\ loaded (table_of_file f) = true.
Proof.
  intros Hf Hc. unfold load_data, read_csv. rewrite Hf. cbn [rbind].
  rewrite (complete_date _ Hc). split; [reflexivity|].
  unfold loaded, has_col, table_of_file. cbn [columns].
  rewrite !andb_true_iff. repeat split.
  - repeat apply complete_set_item. exact Hc.
  - do 2 apply has_name_set_item_keep. apply has_name_set_item_new.
  - apply has_name_set_item_keep. apply has_name_set_item_new.
Qed.

(** ** The whole run *)

Lemma main_loaded (fs : FileSystem) (df : DataFrame) :
  load_data fs default_path = inr df ->
  run fs
  = (basic_statistics df ;;
     product_analysis df ;;
     regional_analysis df ;;
     temporal_analysis df ;;
     category_analysis df ;;
     discount_analysis df ;;
     payment_method_analysis df ;;
     key_insights df ;;
     print rule ;;
     print "Analysis Complete!" ;;
     print rule)
      [Text (nl +++ rule); Text "E-COMMERCE SALES ANALYSIS 2025";
       Text (rule +++ nl);
       Text ("Dataset loaded successfully: " +++ str_Z (len df)
               +++ " records" +++ nl)].
Proof.
  intros E. unfold run, main. rewrite E. repeat step. reflexivity.
Qed.



(** ** Key order *)






(** ** Highlights *)


(** ** Empty subsets of the insights *)


(** ** A table with one row *)

Lemma single_file_default (f : CsvFile) : single_file f default_path = Some f.
Proof. reflexivity. Qed.




(** ** A table with no row *)

Lemma rows_empty_stats {K : Type} `{Key K} (df : DataFrame) (c : Column K)
  (rest : agg_spec) (names : list string) :
  rows df = [] ->
  has_name (cname c) (columns df) = true ->
  missing_column (columns df) (price_stats :: rest) = None ->
  List.length names = List.length (agg_labels (price_stats :: rest)) ->
  index_of "Total Revenue" names = Some O ->
  breakdown true df c (price_stats :: rest) names = inr (mkFrame names []).
Proof.
  intros Hr Hc Hm Hn H0.
  destruct (breakdown_sorted df c rest names Hc Hm Hn H0)
    as (body & E & P & _).
  rewrite Hr in P. apply Permutation_sym, Permutation_nil in P.
  rewrite E, P. reflexivity.
Qed.

Lemma basic_statistics_empty (df : DataFrame) :
  loaded df = true -> rows df = [] ->
  forall out,
    basic_statistics df out
    = (out ++
       [Text rule; Text "BASIC STATISTICS"; Text rule;
        Text "Total Revenue: $0.00";
        Text "Average Transaction Value: $nan";
        Text "Median Transaction Value: $nan";
        Text "Total Units Sold: 0";
        Text "Total Transactions: 0";
        Text "Unique Customers: 0";
        Text "Average Discount: nan%";
        Text "Date Range: NaT to NaT";
        Text ""],
       inr tt).
Proof.
  intros L R out. rewrite (basic_statistics_report df L).
  unfold total_revenue, len. rewrite R. reflexivity.
Qed.

Lemma product_analysis_empty (df : DataFrame) :
  loaded df = true -> rows df = [] ->
  forall out,
    product_analysis df out
    = (out ++
       [Text rule; Text "PRODUCT PERFORMANCE ANALYSIS"; Text rule;
        Table five_columns []],
       inl (ValueError "attempt to get argmax of an empty sequence")).
Proof.
  intros L R out. columns_of L. unfold product_analysis.
  rewrite product_stats_breakdown,
    (rows_empty_stats df col_product with_units_and_discount five_columns
       R Cproduct (missing_none_5 _ Cprice Cquantity Cdiscount)
       eq_refl eq_refl).
  repeat step. rewrite <- !app_assoc. reflexivity.
Qed.

(** C10, as the code has it.  A file with every column and no record
    loads.  The first section completes: the means are printed as nan
    and the date range as [NaT to NaT].  The run stops in the product
    section, where [idxmax] of an empty column raises; the report is cut
    short and the exit status is 1.  On the empty table the regional and
    the temporal section and the insights fail in the same way. *)
Theorem empty_table_report_fails (f : CsvFile) :
  complete (header f) = true -> records f = [] ->
  let df := table_of_file f in
  load_data (single_file f) default_path = inr df
  /\ rows df = []
  /\ completes (basic_statistics df)
  /\ run (single_file f)
     = (banner ++
        [Text ("Dataset loaded successfully: 0 records" +++ nl);
         Text rule; Text "BASIC STATISTICS"; Text rule;
         Text "Total Revenue: $0.00";
         Text "Average Transaction Value: $nan";
         Text "Median Transaction Value: $nan";
         Text "Total Units Sold: 0";
         Text "Total Transactions: 0";
         Text "Unique Customers: 0";
         Text "Average Discount: nan%";
         Text "Date Range: NaT to NaT";
         Text "";
         Text rule; Text "PRODUCT PERFORMANCE ANALYSIS"; Text rule;
         Table five_columns []],
        inl (ValueError "attempt to get argmax of an empty sequence"))
  /\ exit_status (snd (run (single_file f))) = 1%Z
  /\ (forall out,
        snd (product_analysis df out)
        = inl (ValueError "attempt to get argmax of an empty sequence"))
  /\ (forall out,
        snd (regional_analysis df out)
        = inl (ValueError "attempt to get argmax of an empty sequence"))
  /\ (forall out,
        snd (temporal_analysis df out)
        = inl (ValueError "attempt to get argmax of an empty sequence"))
  /\ (forall out,
        snd (key_insights df out)
        = inl (ValueError "attempt to get argmax of an empty sequence")).
Proof.
  intros Hc Hr df.
  destruct (load_data_complete (single_file f) default_path f
              (single_file_default f) Hc) as (E & L).
  fold df in E, L.
  assert (R : rows df = []).
  { unfold df, table_of_file. cbn [rows]. rewrite Hr. reflexivity. }
  pose proof (basic_statistics_empty df L R) as Eb.
  pose proof (product_analysis_empty df L R) as Ep.
  assert (Cb : completes (basic_statistics df))
    by (eapply completes_intro; exact Eb).
  assert (Erun : run (single_file f)
                 = (banner ++
                    [Text ("Dataset loaded successfully: 0 records" +++ nl);
                     Text rule; Text "BASIC STATISTICS"; Text rule;
                     Text "Total Revenue: $0.00";
                     Text "Average Transaction Value: $nan";
                     Text "Median Transaction Value: $nan";
                     Text "Total Units Sold: 0";
                     Text "Total Transactions: 0";
                     Text "Unique Customers: 0";
                     Text "Average Discount: nan%";
                     Text "Date Range: NaT to NaT";
                     Text "";
                     Text rule; Text "PRODUCT PERFORMANCE ANALYSIS";
                     Text rule; Table five_columns []],
                    inl (ValueError
                           "attempt to get argmax of an empty sequence"))).
  { rewrite (main_loaded _ df E). unfold bind at 1. rewrite Eb.
    unfold bind at 1. rewrite Ep. unfold len. rewrite R. reflexivity. }
  columns_of L.
  split; [exact E|]. split; [exact R|]. split; [exact Cb|].
  split; [exact Erun|]. rewrite Erun. split; [reflexivity|].
  split; [intros out; rewrite Ep; reflexivity|]. split; [|split].
  - intros out. unfold regional_analysis.
    rewrite region_stats_breakdown,
      (rows_empty_stats df col_region with_units
         (four_columns "Avg Transaction") R Cregion
         (missing_none_4 _ Cprice Cquantity) eq_refl eq_refl).
    repeat step. reflexivity.
  - intros out. unfold temporal_analysis.
    rewrite (monthly_revenue_loaded df L), R.
    repeat step. reflexivity.
  - intros out. unfold key_insights.
    rewrite (revenue_by_loaded df col_product Cproduct Cprice), R.
    repeat step. reflexivity.
Qed.

(** ** Loading failures *)

Lemma fails_eval {A : Type} (e : exn) : fails (@eval A (inl e)).
Proof. intros out. exists e. reflexivity. Qed.

Lemma fails_bind_l {A B : Type} (m : Py A) (k : A -> Py B) :
  fails m -> fails (bind m k).
Proof.
  intros Hm out. destruct (Hm out) as [e E]. unfold bind.
  destruct (m out) as [out' [e'|a]]; simpl in E; [|discriminate].
  exists e'. reflexivity.
Qed.

Lemma fails_bind_r {A B : Type} (m : Py A) (k : A -> Py B) :
  (forall a, fails (k a)) -> fails (bind m k).
Proof.
  intros Hk out. unfold bind. destruct (m out) as [out' [e|a]].
  - exists e. reflexivity.
  - apply Hk.
Qed.

Lemma getitem_missing {A : Type} (df : DataFrame) (c : Column A) :
  has_col df (cname c) = false -> getitem df c = inl (KeyError (cname c)).
Proof.
  intros Hc. unfold getitem. rewrite Hc. reflexivity.
Qed.

Lemma df_groupby_missing {K : Type} `{Key K} (df : DataFrame) (c : Column K) :
  has_col df (cname c) = false -> df_groupby df c = inl (KeyError (cname c)).
Proof.
  intros Hc. unfold df_groupby. rewrite Hc. reflexivity.
Qed.

(** Walk down a statement to the expression that raises. *)
Ltac hunt E :=
  first [ apply fails_bind_l; rewrite E; apply fails_eval
        | apply fails_bind_r; intro; hunt E ].

Lemma basic_statistics_needs (df : DataFrame) (c : string) :
  In c ["final_price"; "quantity"; "customer_id"; "discount_percent"] ->
  has_col df c = false -> fails (basic_statistics df).
Proof.
  intros [<-|[<-|[<-|[<-|[]]]]] H; unfold basic_statistics.
  - hunt (getitem_missing df col_final_price H).
  - hunt (getitem_missing df col_quantity H).
  - hunt (getitem_missing df col_customer_id H).
  - hunt (getitem_missing df col_discount_percent H).
Qed.

Lemma product_analysis_needs (df : DataFrame) :
  has_col df "product" = false -> fails (product_analysis df).
Proof.
  intros H. unfold product_analysis.
  assert (E : product_stats df = inl (KeyError "product")).
  { unfold product_stats. rewrite (df_groupby_missing df col_product H).
    reflexivity. }
  hunt E.
Qed.

Lemma regional_analysis_needs (df : DataFrame) :
  has_col df "region" = false -> fails (regional_analysis df).
Proof.
  intros H. unfold regional_analysis.
  assert (E : region_stats df = inl (KeyError "region")).
  { unfold region_stats. rewrite (df_groupby_missing df col_region H).
    reflexivity. }
  hunt E.
Qed.

Lemma category_analysis_needs (df : DataFrame) :
  has_col df "category" = false -> fails (category_analysis df).
Proof.
  intros H. unfold category_analysis.
  assert (E : category_stats df = inl (KeyError "category")).
  { unfold category_stats. rewrite (df_groupby_missing df col_category H).
    reflexivity. }
  hunt E.
Qed.

Lemma payment_method_analysis_needs (df : DataFrame) :
  has_col df "payment_method" = false -> fails (payment_method_analysis df).
Proof.
  intros H. unfold payment_method_analysis.
  assert (E : payment_stats df = inl (KeyError "payment_method")).
  { unfold payment_stats.
    rewrite (df_groupby_missing df col_payment_method H). reflexivity. }
  hunt E.
Qed.

Lemma has_name_set_item_other (c x : string) (names : list string) :
  String.eqb c x = false -> has_name c names = false ->
  has_name c (set_item x names) = false.
Proof.
  intros Hx Hc. unfold set_item. destruct (has_name x names); [exact Hc|].
  unfold has_name in *. rewrite existsb_app, Hc. simpl. rewrite Hx.
  reflexivity.
Qed.

Lemma sections_keep (df : DataFrame) : keeps_output (sections df).
Proof.
  unfold sections, basic_statistics, product_analysis, regional_analysis,
    temporal_analysis, category_analysis, discount_analysis,
    payment_method_analysis, key_insights.
  keeps.
Qed.

(** A required column other than [date] that is missing makes a section
    fail. *)
Lemma sections_need (df : DataFrame) (c : string) :
  In c required_columns -> has_col df "date" = true ->
  has_col df c = false -> fails (sections df).
Proof.
  unfold required_columns, sections.
  intros [<-|[<-|[<-|[<-|[<-|[<-|[<-|[<-|[<-|[]]]]]]]]]] Hd H.
  - congruence.
  - apply fails_bind_r. intro. apply fails_bind_l.
    apply product_analysis_needs, H.
  - do 4 (apply fails_bind_r; intro). apply fails_bind_l.
    apply category_analysis_needs, H.
  - do 2 (apply fails_bind_r; intro). apply fails_bind_l.
    apply regional_analysis_needs, H.
  - do 6 (apply fails_bind_r; intro). apply fails_bind_l.
    apply payment_method_analysis_needs, H.
  - apply fails_bind_l. apply (basic_statistics_needs df "customer_id").
    + simpl. tauto.
    + exact H.
  - apply fails_bind_l. apply (basic_statistics_needs df "quantity").
    + simpl. tauto.
    + exact H.
  - apply fails_bind_l.
    apply (basic_statistics_needs df "discount_percent").
    + simpl. tauto.
    + exact H.
  - apply fails_bind_l. apply (basic_statistics_needs df "final_price").
    + simpl. tauto.
    + exact H.
Qed.

Lemma required_not_derived (c : string) :
  In c required_columns ->
  String.eqb c "month" = false /\ String.eqb c "quarter" = false
  /\ String.eqb c "day_of_week" = false.
Proof.
  unfold required_columns.
  intros [<-|[<-|[<-|[<-|[<-|[<-|[<-|[<-|[<-|[]]]]]]]]]];
    repeat split; reflexivity.
Qed.

(** C2, as the code has it.  A missing file and a missing [date] column
    make [load_data] raise; the exception reaches the top, the run ends
    with status 1 and only the banner is printed.  Any other column is
    not looked at by [load_data]: the load succeeds, its message is
    printed, and when a required column is missing the run ends later,
    with an exception and status 1. *)
Theorem load_failures_stop_the_run (fs : FileSystem) :
  (fs default_path = None ->
   load_data fs default_path = inl (FileNotFoundError default_path)
   /\ run fs = (banner, inl (FileNotFoundError default_path))
   /\ exit_status (snd (run fs)) = 1%Z)
  /\ (forall f,
        fs default_path = Some f -> has_name "date" (header f) = false ->
        load_data fs default_path = inl (KeyError "date")
        /\ run fs = (banner, inl (KeyError "date"))
        /\ exit_status (snd (run fs)) = 1%Z)
  /\ (forall f,
        fs default_path = Some f -> has_name "date" (header f) = true ->
        load_data fs default_path = inr (table_of_file f)
        /\ forall c,
             In c required_columns -> has_name c (header f) = false ->
             In (loaded_line (table_of_file f)) (fst (run fs))
             /\ (exists e, snd (run fs) = inl e)
             /\ exit_status (snd (run fs)) = 1%Z).
Proof.
  split; [|split].
  - intros Hf.
    assert (E : load_data fs default_path
                = inl (FileNotFoundError default_path)).
    { unfold load_data, read_csv. rewrite Hf. reflexivity. }
    split; [exact E|]. unfold run, main. rewrite E. repeat step.
    split; reflexivity.
  - intros f Hf Hd.
    assert (E : load_data fs default_path = inl (KeyError "date")).
    { unfold load_data, read_csv. rewrite Hf. cbn [rbind]. rewrite Hd.
      reflexivity. }
    split; [exact E|]. unfold run, main. rewrite E. repeat step.
    split; reflexivity.
  - intros f Hf Hd.
    assert (E : load_data fs default_path = inr (table_of_file f)).
    { unfold load_data, read_csv. rewrite Hf. cbn [rbind]. rewrite Hd.
      reflexivity. }
    split; [exact E|]. intros c Hc Hm.
    rewrite (main_loaded fs _ E). fold (sections (table_of_file f)).
    fold (loaded_line (table_of_file f)).
    split.
    + apply keeps_in; [apply sections_keep|]. do 3 right. left. reflexivity.
    + destruct (required_not_derived c Hc) as (N1 & N2 & N3).
      destruct (sections_need (table_of_file f) c Hc) with
        (out := [Text (nl +++ rule); Text "E-COMMERCE SALES ANALYSIS 2025";
                 Text (rule +++ nl); loaded_line (table_of_file f)])
        as [e Ee].
      * unfold has_col, table_of_file. cbn [columns].
        repeat apply has_name_set_item_keep. exact Hd.
      * unfold has_col, table_of_file. cbn [columns].
        repeat apply has_name_set_item_other; assumption.
      * rewrite Ee. split; [exists e|]; reflexivity.
Qed.

(** ** The properties on the example tables *)











Lemma empty_file_example :
  complete (header empty_file) = true /\ records empty_file = []
  /\ exit_status (snd (run (single_file empty_file))) = 1%Z.
Proof.
  split; [reflexivity|]. split; [reflexivity|].
  destruct (empty_table_report_fails empty_file eq_refl eq_refl)
    as (_ & _ & _ & _ & H & _).
  exact H.
Defined.

(** C10 as it was stated fails in its first cause: on the empty table
    the first section does not fail; the date range of the empty column
    is NaT and is printed as such. *)
Lemma empty_date_range_is_printed :
  rows empty_df = []
  /\ snd (basic_statistics empty_df []) = inr tt
  /\ In (Text "Date Range: NaT to NaT") (fst (basic_statistics empty_df []))
  /\ ~ fails (basic_statistics empty_df).
Proof.
  split; [reflexivity|]. split; [vm_compute; reflexivity|]. split.
  - vm_compute. do 10 right. left. reflexivity.
  - intros H. destruct (H []) as [e E]. vm_compute in E. discriminate E.
Qed.

(** C2 as it was stated fails: a file without the [product] column
    loads; the first section is printed in full, and the run stops in
    the product section. *)
Lemma missing_product_column_loads :
  complete (header no_product_file) = false
  /\ ~ load_error_reported (single_file no_product_file)
  /\ load_data (single_file no_product_file) default_path
     = inr (table_of_file no_product_file)
  /\ snd (run (single_file no_product_file)) = inl (KeyError "product")
  /\ In (Text "Total Revenue: $100.00")
       (fst (run (single_file no_product_file))).
Proof.
  split; [reflexivity|]. split.
  - intros [e [E _]]. vm_compute in E. discriminate E.
  - split; [reflexivity|]. split; [vm_compute; reflexivity|].
    vm_compute. do 7 right. left. reflexivity.
Qed.

Lemma load_failures_examples :
  load_error_reported no_file
  /\ load_error_reported (single_file no_date_file)
  /\ (exists e, snd (run (single_file no_product_file)) = inl e).
Proof.
  split; [|split].
  - exists (FileNotFoundError default_path).
    destruct (load_failures_stop_the_run no_file) as (H & _).
    destruct (H eq_refl) as (E & R & _). split; assumption.
  - exists (KeyError "date").
    destruct (load_failures_stop_the_run (single_file no_date_file))
      as (_ & H & _).
    destruct (H no_date_file eq_refl eq_refl) as (E & R & _).
    split; assumption.
  - destruct (load_failures_stop_the_run (single_file no_product_file))
      as (_ & _ & H).
    destruct (H no_product_file eq_refl eq_refl) as (_ & H').
    destruct (H' "product") as (_ & E & _).
    + simpl. tauto.
    + reflexivity.
    + exact E.
Defined.

(** * Further properties of the script *)

(** ** The order of the labels *)

Lemma ascii_compare_refl (a : ascii) : Ascii.compare a a = Eq.
Proof. unfold Ascii.compare. apply N.compare_refl. Qed.

Lemma ascii_compare_trans (a b c : ascii) :
  Ascii.compare a b = Lt -> Ascii.compare b c = Lt -> Ascii.compare a c = Lt.
Proof.
  unfold Ascii.compare. rewrite !N.compare_lt_iff. apply N.lt_trans.
Qed.

Lemma string_compare_refl (s : string) : String.compare s s = Eq.
Proof.
  induction s as [|a s IH]; simpl.
  - reflexivity.
  - rewrite ascii_compare_refl. exact IH.
Qed.

Lemma string_compare_trans (s1 : string) : forall s2 s3 : string,
  String.compare s1 s2 = Lt -> String.compare s2 s3 = Lt ->
  String.compare s1 s3 = Lt.
Proof.
  induction s1 as [|a s1 IH]; intros [|b s2] [|c s3]; simpl;
    try congruence.
  destruct (Ascii.compare a b) eqn:Eab; try discriminate;
    destruct (Ascii.compare b c) eqn:Ebc; try discriminate; intros H1 H2.
  - apply Ascii.compare_eq_iff in Eab, Ebc. subst.
    rewrite ascii_compare_refl. eapply IH; eassumption.
  - apply Ascii.compare_eq_iff in Eab. subst. rewrite Ebc. reflexivity.
  - apply Ascii.compare_eq_iff in Ebc. subst. rewrite Eab. reflexivity.
  - rewrite (ascii_compare_trans _ _ _ Eab Ebc). reflexivity.
Qed.

#[export] Instance KeyLaws_string : KeyLaws string.
Proof.
  split; simpl.
  - apply string_compare_refl.
  - apply String.compare_eq_iff.
  - intros a b E. rewrite String.compare_antisym, E. reflexivity.
  - intros a b c. apply string_compare_trans.
Qed.

(** ** What a group holds *)

Section GroupContents.
Context {K : Type} `{KeyLaws K} {A : Type}.

Lemma klt_irrefl (a : K) : ~ klt a a.
Proof. unfold klt. rewrite kcmp_refl. discriminate. Qed.

Lemma klt_trans (a b c : K) : klt a b -> klt b c -> klt a c.
Proof. apply kcmp_trans. Qed.


Lemma add_to_group_has_key (k : K) (r : A) (gs : list (K * list A)) (x : K) :
  x = k \/ In x (map fst gs) -> In x (map fst (add_to_group k r gs)).
Proof.
  induction gs as [|[k' rs] gs IH]; simpl.
  - intros [->|[]]. left. reflexivity.
  - destruct (kcmp k k') eqn:E; simpl.
    + apply kcmp_eq in E. subst k'. intros [->|[->|I]]; auto.
    + intros [->|[->|I]]; auto.
    + intros [->|[->|I]]; auto.
Qed.

(** Every row of the table is in the group of its key. *)
Lemma groupby_has_key (key : A -> K) (df : list A) (r : A) :
  In r df -> In (key r) (map fst (groupby key df)).
Proof.
  induction df as [|r0 df IH]; simpl; [tauto|].
  intros [->|Hin]; apply add_to_group_has_key; auto.
Qed.

(** Where an entry of the groups comes from, after a row was added. *)
Lemma add_to_group_in (k0 : K) (r : A) (gs : list (K * list A)) (k : K)
  (rs : list A) :
  StronglySorted klt (map fst gs) ->
  In (k, rs) (add_to_group k0 r gs) ->
  (k = k0
   /\ ((exists rs', rs = r :: rs' /\ In (k0, rs') gs)
       \/ (rs = [r] /\ ~ In k0 (map fst gs))))
  \/ (k <> k0 /\ In (k, rs) gs).
Proof.
  induction gs as [|[k' rs0] gs IH]; simpl; intros Hs Hin.
  - destruct Hin as [E|[]]. injection E as <- <-. left. split; auto.
  - inversion Hs as [|? ? Hs' Hall]; subst.
    rewrite Forall_forall in Hall.
    destruct (kcmp k0 k') eqn:E.
    + apply kcmp_eq in E. subst k'. destruct Hin as [E|Hin].
      * injection E as <- <-. left. split; [reflexivity|]. left.
        exists rs0. split; [reflexivity|]. left. reflexivity.
      * right. split; [|right; exact Hin].
        intros ->. apply (klt_irrefl k0). apply Hall.
        apply in_map_iff. exists (k0, rs). split; [reflexivity | exact Hin].
    + assert (Hlt : forall x, In x (k' :: map fst gs) -> klt k0 x).
      { intros x [<-|Hx]; [exact E|].
        eapply klt_trans; [exact E | apply Hall, Hx]. }
      destruct Hin as [E'|Hin].
      * injection E' as <- <-. left. split; [reflexivity|]. right.
        split; [reflexivity|]. intros Hx. apply (klt_irrefl k0).
        apply Hlt. exact Hx.
      * right. split; [|exact Hin]. intros ->.
        apply (klt_irrefl k0). apply Hlt.
        change (In k0 (map fst ((k', rs0) :: gs))).
        apply in_map_iff. exists (k0, rs). split; [reflexivity | exact Hin].
    + assert (Hne : k0 <> k').
      { intros ->. rewrite kcmp_refl in E. discriminate. }
      destruct Hin as [E'|Hin].
      * injection E' as <- <-. right. split; [congruence|]. left.
        reflexivity.
      * destruct (IH Hs' Hin) as [[-> [[rs' [-> I]]|[-> N]]]|[N I]].
        -- left. split; [reflexivity|]. left. exists rs'.
           split; [reflexivity|]. right. exact I.
        -- left. split; [reflexivity|]. right. split; [reflexivity|].
           intros [Ek|I]; [congruence | exact (N I)].
        -- right. split; [exact N|]. right. exact I.
Qed.

Lemma key_eqb_refl (k : K) : key_eqb k k = true.
Proof. unfold key_eqb. rewrite kcmp_refl. reflexivity. Qed.

Lemma key_eqb_eq (a b : K) : key_eqb a b = true -> a = b.
Proof.
  unfold key_eqb. destruct (kcmp a b) eqn:E; try discriminate.
  intros _. apply kcmp_eq. exact E.
Qed.

Lemma key_eqb_neq (a b : K) : a <> b -> key_eqb a b = false.
Proof.
  intros N. destruct (key_eqb a b) eqn:E; [|reflexivity].
  apply key_eqb_eq in E. contradiction.
Qed.

(** A group holds exactly the rows with its key, in table order. *)
Lemma groupby_group (key : A -> K) (df : list A) :
  forall k rs,
    In (k, rs) (groupby key df) ->
    rs <> [] /\ rs = filter (fun r => key_eqb (key r) k) df.
Proof.
  induction df as [|r df IH]; simpl; intros k rs Hin; [contradiction|].
  destruct (add_to_group_in _ _ _ _ _ (groupby_sorted key df) Hin)
    as [[-> [[rs' [-> I]]|[-> N]]]|[N I]].
  - rewrite key_eqb_refl. split; [discriminate|].
    f_equal. apply IH. exact I.
  - rewrite key_eqb_refl. split; [discriminate|]. f_equal.
    destruct (filter _ df) as [|r' l] eqn:E; [reflexivity|].
    exfalso. apply N.
    assert (Hr' : In r' (filter (fun r0 => key_eqb (key r0) (key r)) df))
      by (rewrite E; left; reflexivity).
    apply filter_In in Hr'. destruct Hr' as [Hd He].
    apply key_eqb_eq in He. rewrite <- He.
    apply groupby_has_key. exact Hd.
  - rewrite key_eqb_neq by congruence. apply IH. exact I.
Qed.
End GroupContents.

(** ** The rows of a breakdown *)



(** ** Units *)






(** ** The closing banner *)

Section AddsOnly.
Variable P : printed -> Prop.

Lemma adds_ret {A : Type} (a : A) : adds_only P (ret a).
Proof.
  intros out. exists []. simpl. rewrite app_nil_r. split; constructor.
Qed.

Lemma adds_eval {A : Type} (r : result A) : adds_only P (eval r).
Proof.
  intros out. exists []. simpl. rewrite app_nil_r. split; constructor.
Qed.

Lemma adds_print (s : string) : P (Text s) -> adds_only P (print s).
Proof.
  intros Hs out. exists [Text s]. split; [reflexivity|].
  repeat constructor. exact Hs.
Qed.

Lemma adds_print_frame {K : Type} `{Key K} (f : Frame K) :
  P (table_of f) -> adds_only P (print_frame f).
Proof.
  intros Hs out. exists [table_of f]. split; [reflexivity|].
  repeat constructor. exact Hs.
Qed.

Lemma adds_print_series {K : Type} `{Key K} (name : string) (s : Series K) :
  P (series_table name s) -> adds_only P (print_series name s).
Proof.
  intros Hs out. exists [series_table name s]. split; [reflexivity|].
  repeat constructor. exact Hs.
Qed.

Lemma adds_bind {A B : Type} (m : Py A) (k : A -> Py B) :
  adds_only P m -> (forall a, adds_only P (k a)) -> adds_only P (bind m k).
Proof.
  intros Hm Hk out. unfold bind. destruct (Hm out) as (more1 & E1 & F1).
  destruct (m out) as [out1 [e|a]]; cbn [fst] in *.
  - exists more1. split; assumption.
  - destruct (Hk a out1) as (more2 & E2 & F2). exists (more1 ++ more2).
    split.
    + rewrite E2, E1, app_assoc. reflexivity.
    + apply Forall_app. split; assumption.
Qed.
End AddsOnly.

(** A line that starts with other characters than the closing line. *)
Lemma other_first (c : ascii) (p rest : string) :
  c <> "A"%char -> not_closing (Text (String c p +++ rest)).
Proof.
  intros N E. unfold closing_line in E. cbn [append] in E.
  injection E as E _. exact (N E).
Qed.

Lemma other_second (c : ascii) (p rest : string) :
  c <> "n"%char -> not_closing (Text (String "A" (String c p) +++ rest)).
Proof.
  intros N E. unfold closing_line in E. cbn [append] in E.
  injection E as E _. exact (N E).
Qed.

Lemma rule_not_closing : not_closing (Text rule).
Proof. intros E. vm_compute in E. discriminate E. Qed.

Ltac other_line :=
  first [ exact rule_not_closing
        | apply other_first; discriminate
        | apply other_second; discriminate
        | unfold nl; apply other_first; vm_compute; discriminate
        | unfold not_closing, closing_line; discriminate
        | let E := fresh "E" in
          intros E; vm_compute in E; discriminate E ].

Ltac adds :=
  repeat (apply adds_bind; [|intros]);
  first [ apply adds_eval | apply adds_ret
        | apply adds_print; other_line
        | apply adds_print_frame; discriminate
        | apply adds_print_series; discriminate ].

Lemma adds_discount_lines (stats : Frame Qc) (total : Q) (index : list Qc) :
  adds_only not_closing (discount_lines stats total index).
Proof.
  induction index as [|d index IH]; cbn [discount_lines].
  - apply adds_ret.
  - apply adds_bind; [apply adds_eval|]. intros revenue.
    apply adds_bind; [apply adds_print; other_line|]. intros _. exact IH.
Qed.

Lemma adds_basic_statistics (df : DataFrame) :
  adds_only not_closing (basic_statistics df).
Proof. unfold basic_statistics. adds. Qed.

Lemma adds_product_analysis (df : DataFrame) :
  adds_only not_closing (product_analysis df).
Proof. unfold product_analysis. adds. Qed.

Lemma adds_regional_analysis (df : DataFrame) :
  adds_only not_closing (regional_analysis df).
Proof. unfold regional_analysis. adds. Qed.

Lemma adds_temporal_analysis (df : DataFrame) :
  adds_only not_closing (temporal_analysis df).
Proof. unfold temporal_analysis. adds. Qed.

Lemma adds_category_analysis (df : DataFrame) :
  adds_only not_closing (category_analysis df).
Proof. unfold category_analysis. adds. Qed.

Lemma adds_discount_analysis (df : DataFrame) :
  adds_only not_closing (discount_analysis df).
Proof.
  unfold discount_analysis.
  repeat (apply adds_bind; [|intros]);
    first [ apply adds_discount_lines | apply adds_eval
          | apply adds_print; other_line
          | apply adds_print_frame; discriminate ].
Qed.

Lemma adds_payment_method_analysis (df : DataFrame) :
  adds_only not_closing (payment_method_analysis df).
Proof. unfold payment_method_analysis. adds. Qed.

Lemma adds_key_insights (df : DataFrame) :
  adds_only not_closing (key_insights df).
Proof. unfold key_insights. adds. Qed.

Lemma closes_bind {A B : Type} (m : Py A) (k : A -> Py B) :
  (forall a, closes_on_return (k a)) -> closes_on_return (bind m k).
Proof.
  intros Hk out [b E]. unfold bind in *.
  destruct (m out) as [out1 [e|a]]; cbn [snd] in E; [discriminate|].
  apply Hk. exists b. exact E.
Qed.

Lemma closes_final :
  closes_on_return (print rule ;; print "Analysis Complete!" ;; print rule).
Proof.
  intros out _. cbn [bind print fst]. apply in_or_app. left. apply in_last.
Qed.

Lemma silent_bind {A B : Type} (m : Py A) (k : A -> Py B) :
  adds_only not_closing m -> (forall a, silent_on_failure (k a)) ->
  silent_on_failure (bind m k).
Proof.
  intros Hm Hk out Hout [e E]. unfold bind in *.
  destruct (Hm out) as (more & E1 & F1).
  assert (F : Forall not_closing (fst (m out)))
    by (rewrite E1; apply Forall_app; split; assumption).
  destruct (m out) as [out1 [e1|a]]; cbn [fst snd] in *; [exact F|].
  apply Hk; [exact F|]. exists e. exact E.
Qed.

Lemma silent_final :
  silent_on_failure (print rule ;; print "Analysis Complete!" ;; print rule).
Proof.
  intros out _ [e E]. cbn [bind print snd] in E. discriminate E.
Qed.

(** X3. Whatever the file system holds, the run prints the title banner
    first, and it prints the line "Analysis Complete!" exactly when it
    returns normally: a run that stops with an exception never prints
    it. *)
Theorem closing_banner_iff_success (fs : FileSystem) :
  (exists more, fst (run fs) = banner ++ more)
  /\ (snd (run fs) = inr tt <-> In closing_line (fst (run fs))).
Proof.
  split; [|split].
  - unfold run, main. do 3 step.
    assert (Hk : keeps_output
                   (df <- eval (load_data fs default_path) ;;
                    print ("Dataset loaded successfully: "
                             +++ str_Z (len df) +++ " records" +++ nl) ;;
                    sections df)).
    { apply keeps_bind; [apply keeps_eval|]. intros df.
      apply keeps_bind; [apply keeps_print|]. intros _.
      apply sections_keep. }
    destruct (Hk ((([] ++ [Text (nl +++ rule)])
                     ++ [Text "E-COMMERCE SALES ANALYSIS 2025"])
                    ++ [Text (rule +++ nl)])) as [more E].
    exists more. exact E.
  - intros E.
    assert (C : closes_on_return (main fs)).
    { unfold main. do 13 (apply closes_bind; intros).
      apply closes_final. }
    apply C. exists tt. exact E.
  - intros Hin.
    assert (S : silent_on_failure (main fs)).
    { unfold main.
      do 3 (apply silent_bind; [apply adds_print; other_line | intros _]).
      apply silent_bind; [apply adds_eval | intros df].
      apply silent_bind; [apply adds_print; other_line | intros _].
      apply silent_bind; [apply adds_basic_statistics | intros _].
      apply silent_bind; [apply adds_product_analysis | intros _].
      apply silent_bind; [apply adds_regional_analysis | intros _].
      apply silent_bind; [apply adds_temporal_analysis | intros _].
      apply silent_bind; [apply adds_category_analysis | intros _].
      apply silent_bind; [apply adds_discount_analysis | intros _].
      apply silent_bind; [apply adds_payment_method_analysis | intros _].
      apply silent_bind; [apply adds_key_insights | intros _].
      apply silent_final. }
    destruct (snd (run fs)) as [e|[]] eqn:E; [|reflexivity].
    exfalso. unfold run in *.
    pose proof (S [] (Forall_nil _) (ex_intro _ e E)) as F.
    rewrite Forall_forall in F. exact (F _ Hin eq_refl).
Qed.







(** ** The revenue distribution by discount level *)








(** ** The leader of the insights and the product table *)







(** ** Months and quarters *)

Lemma Permutation_filter' {A : Type} (p : A -> bool) (l1 l2 : list A) :
  Permutation l1 l2 -> Permutation (filter p l1) (filter p l2).
Proof.
  induction 1 as [|x l1 l2 _ IH|x y l|l1 l2 l3 _ IH1 _ IH2];
    cbn [filter].
  - constructor.
  - destruct (p x); [constructor|]; exact IH.
  - destruct (p x), (p y); try apply Permutation_refl. constructor.
  - eapply Permutation_trans; eassumption.
Qed.

Lemma filter_groups {K A : Type} (key : A -> K) (p : K -> bool)
  (gs : list (K * list A)) :
  Forall (fun g => Forall (fun x => key x = fst g) (snd g)) gs ->
  flat_map snd (filter (fun g => p (fst g)) gs)
  = filter (fun r => p (key r)) (flat_map snd gs).
Proof.
  induction 1 as [|g gs Hg _ IH]; [reflexivity|].
  cbn [filter flat_map]. rewrite filter_app.
  destruct (p (fst g)) eqn:E.
  - cbn [flat_map]. rewrite IH. f_equal. symmetry. apply filter_all.
    eapply Forall_impl; [|exact Hg]. intros r ->. exact E.
  - rewrite IH, (filter_none (fun r => p (key r)) (snd g)); [reflexivity|].
    eapply Forall_impl; [|exact Hg]. intros r ->. exact E.
Qed.

Lemma groups_with_key {K : Type} `{KeyLaws K} (key : Row -> K)
  (p : K -> bool) (df : list Row) :
  Permutation (flat_map snd (filter (fun g => p (fst g)) (groupby key df)))
    (filter (fun r => p (key r)) df).
Proof.
  rewrite (filter_groups key p _ (groupby_same_key key df)).
  apply Permutation_filter', groupby_perm.
Qed.

Lemma derived_quarter (f : CsvFile) :
  Forall (fun r => quarter r = month_quarter (month r))
    (rows (table_of_file f)).
Proof.
  unfold table_of_file. cbn [rows]. apply Forall_map, Forall_forall.
  intros r _. reflexivity.
Qed.

Lemma cents_sum (rs : list Row) :
  Forall (fun r => whole_cents (final_price r) = true) rs ->
  cell_Q (revenue_cell rs) == Qsum (map final_price rs).
Proof.
  intros Hw. unfold revenue_cell, cell_Q, cell_float.
  apply round2_cents, Qsum_cents, Forall_map. exact Hw.
Qed.

(** X7. For a table loaded from a file whose prices are whole cents, the
    revenue of every quarter in the quarterly series is the sum of the
    revenues that the monthly series shows for the months of that
    quarter. *)
Theorem quarters_add_up_their_months (f : CsvFile) :
  complete (header f) = true ->
  Forall (fun r => whole_cents (csv_final_price r) = true) (records f) ->
  exists monthly quarterly,
    monthly_revenue (table_of_file f) = inr monthly
    /\ quarterly_revenue (table_of_file f) = inr quarterly
    /\ forall q c,
         In (q, c) quarterly ->
         cell_Q c == column_sum (values (months_of_quarter q monthly)).
Proof.
  intros Hc Hw.
  destruct (load_data_complete (single_file f) default_path f
              (single_file_default f) Hc) as (_ & L).
  set (df := table_of_file f) in *.
  assert (Hp : Forall (fun r => whole_cents (final_price r) = true)
                 (rows df)).
  { unfold df, table_of_file. cbn [rows]. apply Forall_map.
    eapply Forall_impl; [|exact Hw]. intros r E. exact E. }
  eexists. eexists.
  split; [exact (monthly_revenue_loaded df L)|].
  split; [exact (quarterly_revenue_loaded df L)|].
  intros q c Hin. apply in_map_iff in Hin.
  destruct Hin as ([q' rs] & Eq & Hg). cbn [fst snd] in Eq.
  injection Eq as -> <-.
  destruct (groupby_group quarter (rows df) q rs Hg) as [_ Ers].
  assert (Hrs : Forall (fun r => whole_cents (final_price r) = true) rs).
  { rewrite Ers. apply Forall_forall. intros r Hr.
    apply filter_In in Hr. rewrite Forall_forall in Hp.
    apply Hp, Hr. }
  rewrite (cents_sum rs Hrs).
  unfold months_of_quarter, values, column_sum.
  assert (Ef : filter (fun kv : Z * cell => month_quarter (fst kv) =? q)
                 (map (fun kr : Z * list Row =>
                         (fst kr, revenue_cell (snd kr)))
                    (groupby month (rows df)))
               = map (fun kr : Z * list Row =>
                        (fst kr, revenue_cell (snd kr)))
                   (filter (fun g : Z * list Row =>
                              month_quarter (fst g) =? q)
                      (groupby month (rows df)))).
  { induction (groupby month (rows df)) as [|g gs IH]; [reflexivity|].
    cbn [map filter fst]. destruct (month_quarter (fst g) =? q);
      [cbn [map]; f_equal|]; exact IH. }
  rewrite Ef, !map_map. cbn [snd].
  transitivity
    (Qsum (map (fun g : Z * list Row => Qsum (map final_price (snd g)))
             (filter (fun g : Z * list Row => month_quarter (fst g) =? q)
                (groupby month (rows df))))).
  2:{ apply Qsum_ext_in. intros g Hin. symmetry. apply cents_sum.
      apply filter_In in Hin. destruct Hin as [Hin _].
      destruct g as [m ms].
      destruct (groupby_group month (rows df) m ms Hin) as [_ ->].
      apply Forall_forall. intros r Hr. apply filter_In in Hr.
      rewrite Forall_forall in Hp. apply Hp, Hr. }
  rewrite Qsum_flat_map.
  apply Qsum_perm, Permutation_map.
  rewrite Ers.
  eapply Permutation_trans;
    [|apply Permutation_sym,
        (groups_with_key month (fun m => month_quarter m =? q))].
  assert (Eq : filter (fun r => key_eqb (quarter r) q) (rows df)
               = filter (fun r => month_quarter (month r) =? q) (rows df)).
  { apply filter_ext_in. intros r Hr.
    pose proof (derived_quarter f) as D. rewrite Forall_forall in D.
    rewrite (D r Hr). unfold key_eqb. cbn [kcmp Key_Z].
    rewrite Z.eqb_compare. reflexivity. }
  rewrite Eq. apply Permutation_refl.
Qed.

(** ** The two means of the insights *)





(** ** The figures of the basic statistics *)









(** ** The further properties on the scenario *)





Lemma quarters_scenario :
  complete (header scenario_file) = true
  /\ Forall (fun r => whole_cents (csv_final_price r) = true)
       (records scenario_file)
  /\ exists monthly quarterly,
       monthly_revenue scenario_df = inr monthly
       /\ quarterly_revenue scenario_df = inr quarterly
       /\ forall q c,
            In (q, c) quarterly ->
            cell_Q c == column_sum (values (months_of_quarter q monthly)).
Proof.
  assert (Hw : Forall (fun r => whole_cents (csv_final_price r) = true)
                 (records scenario_file)) by (repeat constructor).
  split; [reflexivity|]. split; [exact Hw|].
  exact (quarters_add_up_their_months scenario_file eq_refl Hw).
Defined.


